(** * Series analytics of the market dashboard
      (pages/03_added.py and pages/추가된 게시판.py)

    A shallow embedding of the arithmetic that the Streamlit page performs on
    the price frames it downloads: normalisation of the close column to a
    base of 100, the performance table (start/end price, total return,
    extrema, standard deviation), the crisis-window overlay and the
    resolution of a period code to a plot start date.

    Numbers are IEEE 754 binary64 values, as in the [float64] columns that
    pandas holds; they are modelled with the standard library's
    [spec_float], whose operations round to nearest-even exactly like the
    hardware does.  Dates are naive [datetime] values, modelled by their
    number of microseconds since 0001-01-01T00:00:00. *)

From Stdlib Require Import ZArith Lia Bool QArith Qfield.
From Stdlib Require Import SpecFloat Ascii.
From stdpp Require Import gmap strings list fin_maps pretty.

Local Open Scope Z_scope.

(* ===================================================================== *)
(** * Python exceptions and the error monad *)
(* ===================================================================== *)

(** The exceptions that the modelled statements can raise.  Division of
    [numpy.float64] values never raises: it yields an infinity or a NaN. *)
Inductive exn : Type :=
  | KeyError (key : string)
  | IndexError
  | OverflowError.

Inductive result (A : Type) : Type :=
  | Ok (a : A)
  | Raise (e : exn).
Arguments Ok {A} a.
Arguments Raise {A} e.

#[global] Instance result_ret : MRet result := fun _ a => Ok a.
#[global] Instance result_bind : MBind result := fun _ _ f m =>
  match m with
  | Ok a => f a
  | Raise e => Raise e
  end.

Definition of_option {A} (e : exn) (o : option A) : result A :=
  match o with
  | Some a => Ok a
  | None => Raise e
  end.

(* ===================================================================== *)
(** * binary64 arithmetic *)
(* ===================================================================== *)

(** A binary64 value is a [spec_float] that is [valid_binary] for the
    precision and exponent range below.  The operations are the standard
    library's, which round to nearest, ties to even; the facts proved
    about them further down hold for every [spec_float], and so for every
    binary64 value. *)
Module Float64.

Definition prec : Z := 53.
Definition emax : Z := 1024.

Abbreviation float := spec_float.

(** Conversion of a Python [int] operand, as numpy does before a
    mixed operation. *)
Definition of_Z (z : Z) : float := binary_normalize prec emax z 0 false.
Definition of_nat (n : nat) : float := of_Z (Z.of_nat n).

Definition add : float → float → float := SFadd prec emax.
Definition sub : float → float → float := SFsub prec emax.
Definition mul : float → float → float := SFmul prec emax.
Definition div : float → float → float := SFdiv prec emax.
Definition sqrt : float → float := SFsqrt prec emax.

Definition eqb : float → float → bool := SFeqb.
Definition ltb : float → float → bool := SFltb.
Definition leb : float → float → bool := SFleb.

Definition zero : float := S754_zero false.
Definition nan : float := S754_nan.
Definition inf : float := S754_infinity false.
Definition neg_inf : float := S754_infinity true.
Definition hundred : float := of_Z 100.

Definition is_nan (x : float) : bool :=
  match x with S754_nan => true | _ => false end.

Definition is_inf (x : float) : bool :=
  match x with S754_infinity _ => true | _ => false end.

Definition is_zero (x : float) : bool :=
  match x with S754_zero _ => true | _ => false end.

(** [numpy.isfinite]: a zero or a finite nonzero number. *)
Definition is_finite (x : float) : bool :=
  match x with
  | S754_zero _ | S754_finite _ _ _ => true
  | _ => false
  end.

Definition sign (x : float) : bool :=
  match x with
  | S754_zero s | S754_infinity s | S754_finite s _ _ => s
  | S754_nan => false
  end.

(** Order of two finite numbers of the same sign, by exponent and then
    by mantissa. *)
Definition lex_le (e1 : Z) (m1 : positive) (e2 : Z) (m2 : positive) : Prop :=
  e1 < e2 ∨ (e1 = e2 ∧ (m1 <= m2)%positive).

End Float64.

Import Float64.

(* ===================================================================== *)
(** * The formulas of the page, over any arithmetic *)
(* ===================================================================== *)

(** The three scalar formulas of the page are written once over the
    operations they use.  The page evaluates them in binary64; the
    instance over [Q] gives their exact value. *)
Section Formulas.
Context {num : Type}.
Variables (fsub fdiv fmul : num → num → num) (c100 : num).

(** [(data['Close'] / initial_price) * 100], for one element. *)
Definition normalized_close_with (initial_price close : num) : num :=
  fmul (fdiv close initial_price) c100.

(** [((end_price - start_price) / start_price) * 100]. *)
Definition total_return_with (start_price end_price : num) : num :=
  fmul (fdiv (fsub end_price start_price) start_price) c100.

(** [current_normalized_price - initial_normalized_price], both read
    from the normalised column. *)
Definition normalized_return_with (initial_price current_price : num) : num :=
  fsub (normalized_close_with initial_price current_price)
       (normalized_close_with initial_price initial_price).
End Formulas.

Definition normalized_close : float → float → float :=
  normalized_close_with div mul hundred.
Definition total_return : float → float → float :=
  total_return_with sub div mul hundred.


(* ===================================================================== *)
(** * Naive datetimes *)
(* ===================================================================== *)

Module datetime.

(** Microseconds since 0001-01-01T00:00:00.  Python orders naive
    datetimes field by field, which is the order of this number. *)
Abbreviation t := Z (only parsing).

Definition us_per_day : Z := 86400000000.

Definition is_leap (year : Z) : bool :=
  (year mod 4 =? 0) && (negb (year mod 100 =? 0) || (year mod 400 =? 0)).

Definition days_before_year (year : Z) : Z :=
  let y := year - 1 in
  y * 365 + y / 4 - y / 100 + y / 400.

(** Days before the first of each month of a common year; months
    count from 1. *)
Definition DAYS_BEFORE_MONTH : list Z :=
  [-1; 0; 31; 59; 90; 120; 151; 181; 212; 243; 273; 304; 334].

Definition days_before_month (year month : Z) : Z :=
  default 0 (DAYS_BEFORE_MONTH !! Z.to_nat month)
  + (if (2 <? month) && is_leap year then 1 else 0).

Definition ymd2ord (year month day : Z) : Z :=
  days_before_year year + days_before_month year month + day.

(** [datetime(year, month, day)], at midnight. *)
Definition make (year month day : Z) : t :=
  (ymd2ord year month day - 1) * us_per_day.

(** [datetime.max], 9999-12-31T23:59:59.999999. *)
Definition max : t := make 9999 12 31 + us_per_day - 1.

(** [timedelta(days=n)]. *)
Definition timedelta (days : Z) : Z := days * us_per_day.

(** [d - delta]: the result must stay within [datetime.min, datetime.max]. *)
Definition sub (d : t) (delta : Z) : result t :=
  let r := d - delta in
  if (0 <=? r) && (r <=? max) then Ok r else Raise OverflowError.

End datetime.

(* ===================================================================== *)
(** * The pandas operations the page calls *)
(* ===================================================================== *)

Module pandas.

(** The values of a [float64] Series. *)
Abbreviation Series := (list float) (only parsing).

(** A frame of daily bars: the date index and the named columns
    (Open, High, Low, Close, Volume, ...). *)
Record DataFrame : Type := {
  index : list Z;
  columns : gmap string (list float)
}.

(** Every column is as long as the index. *)
Definition well_formed (data : DataFrame) : Prop :=
  ∀ name col, columns data !! name = Some col → length col = length (index data).

(** [len(data)] *)
Definition len (data : DataFrame) : nat := length (index data).

(** [data.empty]: no row or no column. *)
Definition empty (data : DataFrame) : bool :=
  bool_decide (index data = []) || bool_decide (columns data = ∅).

(** [data[name]] *)
Definition getitem (data : DataFrame) (name : string) : result (list float) :=
  of_option (KeyError name) (columns data !! name).

(** [data[name] = values], for values on the same index. *)
Definition setitem (data : DataFrame) (name : string) (values : list float) : DataFrame :=
  {| index := index data; columns := <[name := values]> (columns data) |}.

(** [s.iloc[0]] and [s.iloc[-1]] *)
Definition iloc_first (s : list float) : result float :=
  of_option IndexError (s !! 0%nat).
Definition iloc_last (s : list float) : result float :=
  of_option IndexError (last s).

(** [s / x] and [s * x] with a scalar. *)
Definition div_scalar (s : list float) (x : float) : list float :=
  (λ c, div c x) <$> s.
Definition mul_scalar (s : list float) (x : float) : list float :=
  (λ c, mul c x) <$> s.

(** Reductions skip NaN ([skipna=True]). *)
Definition count_valid (s : list float) : nat :=
  length (filter (λ x, is_nan x = false) s).

Definition fillna (fill : float) (s : list float) : list float :=
  (λ x, if is_nan x then fill else x) <$> s.

(** numpy's [maximum] and [minimum] on two scalars. *)
Definition np_maximum (a b : float) : float :=
  if leb b a || is_nan a then a else b.
Definition np_minimum (a b : float) : float :=
  if leb a b || is_nan a then a else b.

Definition np_reduce (op : float → float → float) (s : list float) : float :=
  match s with
  | [] => nan
  | x :: xs => foldl op x xs
  end.

(** [s.max()]: NaN when no value is valid, otherwise the maximum of the
    values with NaN replaced by -inf. *)
Definition Series_max (s : list float) : float :=
  if decide (count_valid s < 1)%nat then nan
  else np_reduce np_maximum (fillna neg_inf s).

(** [s.min()], with NaN replaced by +inf. *)
Definition Series_min (s : list float) : float :=
  if decide (count_valid s < 1)%nat then nan
  else np_reduce np_minimum (fillna inf s).

(** numpy's sum of a float64 array is [pairwise_sum], in three regimes
    by the length n of the array.

    Below 8 values the values are added left to right, starting from
    -0.0.

    Up to 128 values, eight partial sums are kept: they start as the
    first eight values, and every further full block of eight values is
    added to them position by position.  [add_blocks] is that loop, run
    [blocks] times: it returns the partial sums and the values left
    over, fewer than eight. *)
Fixpoint add_blocks (blocks : nat) (r rest : list float) : list float * list float :=
  match blocks with
  | O => (r, rest)
  | S blocks => add_blocks blocks (zip_with add r (take 8 rest)) (drop 8 rest)
  end.

(** The partial sums are then added as a balanced tree, and the values
    left over are added to the result one by one. *)
Definition block_sum (a : list float) : float :=
  let '(r, rest) := add_blocks (length a / 8 - 1) (take 8 a) (drop 8 a) in
  match r with
  | [r0; r1; r2; r3; r4; r5; r6; r7] =>
      foldl add (add (add (add r0 r1) (add r2 r3)) (add (add r4 r5) (add r6 r7))) rest
  | _ => nan
  end.

(** Above 128 values the array is cut at half its length, rounded down
    to a multiple of eight, and the sums of the two parts are added.
    The recursion is on the length, which [fuel] bounds: both parts are
    shorter than the array (see [pairwise_sum_fuel_enough]). *)
Fixpoint pairwise_sum_fuel (fuel : nat) (a : list float) : float :=
  if (length a <? 8)%nat then foldl add (S754_zero true) a
  else if (length a <=? 128)%nat then block_sum a
  else
    match fuel with
    | O => nan
    | S fuel =>
        let n2 := (length a / 2)%nat in
        let n2 := (n2 - n2 mod 8)%nat in
        add (pairwise_sum_fuel fuel (take n2 a)) (pairwise_sum_fuel fuel (drop n2 a))
    end.

Definition pairwise_sum (a : list float) : float :=
  pairwise_sum_fuel (length a) a.

(** [a.sum()]: the reduction starts from the identity 0 of addition, to
    which the pairwise sum of the whole array is added. *)
Definition np_sum (s : list float) : float := add zero (pairwise_sum s).

(** [nanvar]: the two-pass variance with [ddof] delta degrees of
    freedom; NaN when there are no more than [ddof] valid values. *)
Definition nanvar (ddof : nat) (s : list float) : float :=
  let n := count_valid s in
  let count := if decide (n ≤ ddof)%nat then nan else of_nat n in
  let d := if decide (n ≤ ddof)%nat then nan else sub (of_nat n) (of_nat ddof) in
  let avg := div (np_sum (fillna zero s)) count in
  let sqr := (λ x, if is_nan x then zero else mul (sub avg x) (sub avg x)) <$> s in
  div (np_sum sqr) d.

(** [s.std()]: pandas' default is [ddof=1], the sample estimator. *)
Definition Series_std (s : list float) : float := sqrt (nanvar 1 s).

End pandas.

Import pandas.

(* ===================================================================== *)
(** * Figures and the crisis catalogue *)
(* ===================================================================== *)

(** A shaded vertical band with its annotation, as [fig.add_vrect]
    receives it. *)
Record vrect : Type := {
  x0 : Z;
  x1 : Z;
  fillcolor : string;
  layer : string;
  line_width : Z;
  annotation_text : string;
  annotation_position : string;
  annotation_font_size : Z;
  annotation_font_color : string
}.

(** A figure: the names of its traces and its shapes, in the order in
    which they were added. *)
Record Figure : Type := {
  traces : list string;
  shapes : list vrect
}.

Definition add_vrect (fig : Figure) (r : vrect) : Figure :=
  {| traces := traces fig; shapes := shapes fig ++ [r] |}.

(** One catalogue entry, [[start, end, description]]. *)
Record crisis : Type := {
  crisis_start : Z;
  crisis_end : Z;
  description : string
}.

(** The catalogue is a dict; its items come in insertion order. *)
Abbreviation catalogue := (list (string * crisis)) (only parsing).

Definition CRISIS_PERIODS : catalogue :=
  [ ("코로나19 팬데믹 쇼크",
     {| crisis_start := datetime.make 2020 2 19;
        crisis_end := datetime.make 2020 4 1;
        description := "코로나19 팬데믹으로 인한 급락" |});
    ("2022년 인플레이션/금리 인상",
     {| crisis_start := datetime.make 2022 1 1;
        crisis_end := datetime.make 2022 12 31;
        description := "인플레이션 및 금리 인상으로 인한 시장 하락" |});
    ("실리콘밸리 은행 파산",
     {| crisis_start := datetime.make 2023 3 8;
        crisis_end := datetime.make 2023 3 20;
        description := "SVB 파산으로 인한 금융시장 불안" |}) ].

Definition crisis_vrect (name : string) (dates : crisis) : vrect :=
  {| x0 := crisis_start dates;
     x1 := crisis_end dates;
     fillcolor := "rgba(255, 0, 0, 0.1)";
     layer := "below";
     line_width := 0;
     annotation_text := name;
     annotation_position := "top left";
     annotation_font_size := 10;
     annotation_font_color := "red" |}.

(** The test of [add_crisis_regions]:
    [not (crisis_end < start_date or crisis_start > end_date)]. *)
Definition overlaps (dates : crisis) (start_date end_date : Z) : bool :=
  negb ((crisis_end dates <? start_date) || (crisis_start dates >? end_date)).

(** [add_crisis_regions(fig, start_date, end_date)], the loop over the
    items of the catalogue. *)
Fixpoint add_crisis_regions_in (items : catalogue) (fig : Figure)
    (start_date end_date : Z) : Figure :=
  match items with
  | [] => fig
  | (name, dates) :: rest =>
      let fig' :=
        if overlaps dates start_date end_date
        then add_vrect fig (crisis_vrect name dates)
        else fig in
      add_crisis_regions_in rest fig' start_date end_date
  end.

Definition add_crisis_regions : Figure → Z → Z → Figure :=
  add_crisis_regions_in CRISIS_PERIODS.

Definition empty_figure : Figure := {| traces := []; shapes := [] |}.

(** The band of a catalogue item, and the test on it. *)
Definition item_vrect (item : string * crisis) : vrect :=
  crisis_vrect item.1 item.2.

Definition item_overlaps (start_date end_date : Z) (item : string * crisis) : bool :=
  overlaps item.2 start_date end_date.

(** The bands that the loop draws for a display range. *)
Definition overlapping_windows (items : catalogue) (start_date end_date : Z)
    : list vrect :=
  shapes (add_crisis_regions_in items empty_figure start_date end_date).

(* ===================================================================== *)
(** * Period codes *)
(* ===================================================================== *)

(** The choices of the two period selectors. *)
Definition period_options : list (string * string) :=
  [("1년", "1y"); ("2년", "2y"); ("3년", "3y"); ("5년", "5y")].
Definition aw_period_options : list (string * string) :=
  [("1년", "1y"); ("3년", "3y"); ("5년", "5y"); ("10년", "10y")].

(** Start of the plotted range on the company page. *)
Definition plot_start_date (selected_period_value : string) (end_date : Z)
    : result Z :=
  if String.eqb selected_period_value "1y" then
    datetime.sub end_date (datetime.timedelta 365)
  else if String.eqb selected_period_value "2y" then
    datetime.sub end_date (datetime.timedelta (2 * 365))
  else if String.eqb selected_period_value "3y" then
    datetime.sub end_date (datetime.timedelta (3 * 365))
  else if String.eqb selected_period_value "5y" then
    datetime.sub end_date (datetime.timedelta (5 * 365))
  else (* Fallback to 3 years *)
    datetime.sub end_date (datetime.timedelta (3 * 365)).

(** Start of the plotted range on the all-weather page. *)
Definition plot_start_date_aw (selected_aw_period_value : string) (end_date_aw : Z)
    : result Z :=
  if String.eqb selected_aw_period_value "1y" then
    datetime.sub end_date_aw (datetime.timedelta 365)
  else if String.eqb selected_aw_period_value "3y" then
    datetime.sub end_date_aw (datetime.timedelta (3 * 365))
  else if String.eqb selected_aw_period_value "5y" then
    datetime.sub end_date_aw (datetime.timedelta (5 * 365))
  else if String.eqb selected_aw_period_value "10y" then
    datetime.sub end_date_aw (datetime.timedelta (10 * 365))
  else (* Fallback to 3 years *)
    datetime.sub end_date_aw (datetime.timedelta (3 * 365)).

(** The display range handed to [add_crisis_regions]: the start computed
    from the period code, and [datetime.now()] as its end. *)
Definition display_range (resolve : string → Z → result Z) (code : string) (now : Z)
    : result (Z * Z) :=
  start ← resolve code now; mret (start, now).

(* ===================================================================== *)
(** * Normalisation (all-weather page) *)
(* ===================================================================== *)

(** The two statements that normalise one frame:
    [initial_price = data['Close'].iloc[0]] and
    [data['Normalized Close'] = (data['Close'] / initial_price) * 100]. *)
Definition normalize (data : DataFrame) : result DataFrame :=
  close ← getitem data "Close";
  initial_price ← iloc_first close;
  close' ← getitem data "Close";
  mret (setitem data "Normalized Close"
          (mul_scalar (div_scalar close' initial_price) hundred)).

(** What the loading loop has collected: the normalised frames by asset
    name, in insertion order, and the warnings shown. *)
Record aw_state : Type := {
  aw_data : list (string * DataFrame);
  warnings : list string
}.

(** [aw_data[asset_name] = data] *)
Fixpoint dict_set {V} (d : list (string * V)) (k : string) (v : V) : list (string * V) :=
  match d with
  | [] => [(k, v)]
  | (k', v') :: rest =>
      if String.eqb k' k then (k, v) :: rest else (k', v') :: dict_set rest k v
  end.

Fixpoint dict_get {V} (d : list (string * V)) (k : string) : option V :=
  match d with
  | [] => None
  | (k', v') :: rest => if String.eqb k' k then Some v' else dict_get rest k
  end.

Definition aw_warning (asset_name ticker : string) : string :=
  "'" +:+ asset_name +:+ "' (" +:+ ticker +:+ ") 의 데이터를 불러올 수 없습니다.".

(** One turn of the loading loop, for the frame that [get_stock_data]
    returned ([None] after a failed download). *)
Definition load_aw_asset (asset_name ticker : string) (data : option DataFrame)
    (st : aw_state) : result aw_state :=
  match data with
  | Some data =>
      if negb (empty data) then
        data' ← normalize data;
        mret {| aw_data := dict_set (aw_data st) asset_name data';
                warnings := warnings st |}
      else
        mret {| aw_data := aw_data st;
                warnings := warnings st ++ [aw_warning asset_name ticker] |}
  | None =>
      mret {| aw_data := aw_data st;
              warnings := warnings st ++ [aw_warning asset_name ticker] |}
  end.

(* ===================================================================== *)
(** * Performance tables *)
(* ===================================================================== *)

(** One row of the company table, with the numbers as they are before
    they are formatted to two decimals. *)
Record performance : Type := {
  perf_name : string;
  start_price : float;
  end_price : float;
  total_return_pct : float;
  max_price : float;
  min_price : float;
  std_dev : float
}.

(** The body of the loop that fills [performance_data]. *)
Definition summarize (company : string) (data : DataFrame) : result performance :=
  close ← getitem data "Close";
  start_price ← iloc_first close;
  end_price ← iloc_last close;
  mret {| perf_name := company;
          start_price := start_price;
          end_price := end_price;
          total_return_pct := total_return start_price end_price;
          max_price := Series_max close;
          min_price := Series_min close;
          std_dev := Series_std close |}.

(** The loop itself: frames without rows are passed over. *)
Fixpoint performance_data (stock_data : list (string * DataFrame))
    : result (list performance) :=
  match stock_data with
  | [] => mret []
  | (company, data) :: rest =>
      if (0 <? len data)%nat then
        row ← summarize company data;
        rows ← performance_data rest;
        mret (row :: rows)
      else performance_data rest
  end.

(** One row of the all-weather table. *)
Record aw_performance : Type := {
  aw_name : string;
  initial_actual_price : float;
  current_actual_price : float;
  initial_normalized_price : float;
  current_normalized_price : float;
  aw_total_return : float
}.

Definition aw_summarize (asset_name : string) (data : DataFrame) : result aw_performance :=
  normalized ← getitem data "Normalized Close";
  initial_normalized_price ← iloc_first normalized;
  current_normalized_price ← iloc_last normalized;
  close ← getitem data "Close";
  initial_actual_price ← iloc_first close;
  current_actual_price ← iloc_last close;
  mret {| aw_name := asset_name;
          initial_actual_price := initial_actual_price;
          current_actual_price := current_actual_price;
          initial_normalized_price := initial_normalized_price;
          current_normalized_price := current_normalized_price;
          aw_total_return := sub current_normalized_price initial_normalized_price |}.

(** One row of the four-seasons table (pages/추가된 게시판.py). *)
Record etf_performance : Type := {
  etf_label : string;
  etf_start_price : float;
  etf_end_price : float;
  etf_total_return : float;
  etf_volatility : float
}.

Definition etf_summarize (label : string) (data : DataFrame) : result etf_performance :=
  close ← getitem data "Close";
  start_price ← iloc_first close;
  end_price ← iloc_last close;
  mret {| etf_label := label;
          etf_start_price := start_price;
          etf_end_price := end_price;
          etf_total_return := total_return start_price end_price;
          etf_volatility := Series_std close |}.

(** A frame with the five price columns of a download. *)
Definition bars (dates : list Z) (open high low close volume : list float) : DataFrame :=
  {| index := dates;
     columns := <["Open" := open]> (<["High" := high]> (<["Low" := low]>
                  (<["Close" := close]> (<["Volume" := volume]> ∅)))) |}.

(** A frame whose five columns all hold the given integer prices. *)
Definition frame_of_closes (closes : list Z) : DataFrame :=
  let col := of_Z <$> closes in
  bars (Z.of_nat <$> seq 0 (length closes)) col col col col col.

(* ===================================================================== *)
(** * Values of the provider and their formatting *)
(* ===================================================================== *)

(** A value of the provider's info dict: absent values come as [None],
    prices and capitalisations as [int] or [float], names as [str]. *)
Inductive pyval : Type :=
  | PyNone
  | PyInt (n : Z)
  | PyFloat (x : float)
  | PyStr (s : string).

(** The exceptions of comparing, dividing and formatting such values. *)
Inductive value_exn : Type :=
  | TypeError
  | ValueError
  | FloatOverflow.

Inductive outcome (A : Type) : Type :=
  | Returns (a : A)
  | Raises (e : value_exn).
Arguments Returns {A} a.
Arguments Raises {A} e.

#[global] Instance outcome_ret : MRet outcome := fun _ a => Returns a.
#[global] Instance outcome_bind : MBind outcome := fun _ _ f m =>
  match m with
  | Returns a => f a
  | Raises e => Raises e
  end.

(** Python compares an [int] with a [float] exactly, without converting
    the integer. *)
Definition Z_compare_float (n : Z) (x : float) : option comparison :=
  match x with
  | S754_nan => None
  | S754_infinity s => Some (if s then Gt else Lt)
  | S754_zero _ => Some (n ?= 0)
  | S754_finite s m e =>
      let v := cond_Zopp s (Zpos m) in
      if 0 <=? e then Some (n ?= v * 2 ^ e) else Some (n * 2 ^ (- e) ?= v)
  end.

(** [v >= c] for a float [c]. *)
Definition py_ge (v : pyval) (c : float) : outcome bool :=
  match v with
  | PyNone | PyStr _ => Raises TypeError
  | PyInt n =>
      Returns (match Z_compare_float n c with
               | Some (Eq | Gt) => true
               | _ => false
               end)
  | PyFloat x => Returns (leb c x)
  end.

(** [float(n)]: an integer beyond the range of binary64 is refused. *)
Definition py_float (n : Z) : outcome float :=
  let x := of_Z n in
  if is_inf x then Raises FloatOverflow else Returns x.

(** [v / c] for a nonzero float [c]. *)
Definition py_truediv (v : pyval) (c : float) : outcome float :=
  match v with
  | PyNone | PyStr _ => Raises TypeError
  | PyInt n => x ← py_float n; mret (div x c)
  | PyFloat x => mret (div x c)
  end.

(** Rounding of [num / den] to the nearest integer, ties to even, for
    [0 <= num] and [0 < den]. *)
Definition round_half_even (num den : Z) : Z :=
  let q := num / den in
  let r := num mod den in
  match 2 * r ?= den with
  | Lt => q
  | Gt => q + 1
  | Eq => if Z.even q then q else q + 1
  end.

(** The magnitude [m * 2^e], times [10^digits], correctly rounded. *)
Definition scaled_magnitude (digits : nat) (m : positive) (e : Z) : Z :=
  if 0 <=? e then Zpos m * 2 ^ e * 10 ^ Z.of_nat digits
  else round_half_even (Zpos m * 10 ^ Z.of_nat digits) (2 ^ (- e)).

(** Commas between groups of three digits, on the reversed digits. *)
Fixpoint group_reversed (reversed : list ascii) (seen : nat) : list ascii :=
  match reversed with
  | [] => []
  | d :: rest =>
      match rest with
      | [] => [d]
      | _ =>
          if (seen =? 2)%nat then d :: ","%char :: group_reversed rest 0
          else d :: group_reversed rest (S seen)
      end
  end.

Definition group_thousands (digits : string) : string :=
  String.string_of_list_ascii
    (reverse (group_reversed (reverse (String.list_ascii_of_string digits)) 0)).

Fixpoint zero_pad (width : nat) (digits : string) : string :=
  match width with
  | O => digits
  | S w => if (String.length digits <? width)%nat
           then zero_pad w ("0" +:+ digits) else digits
  end.

(** The digits of a magnitude that was scaled by [10^digits]. *)
Definition fixed_digits (grouping : bool) (digits : nat) (scaled : Z) : string :=
  let whole := pretty (scaled / 10 ^ Z.of_nat digits) in
  let whole := if grouping then group_thousands whole else whole in
  match digits with
  | O => whole
  | S _ => whole +:+ "." +:+ zero_pad digits (pretty (scaled mod 10 ^ Z.of_nat digits))
  end.

(** The formats [.2f] and [,.0f] of a float. *)
Definition format_fixed (grouping : bool) (digits : nat) (x : float) : string :=
  match x with
  | S754_nan => "nan"
  | S754_infinity s => (if s then "-" else "") +:+ "inf"
  | S754_zero s => (if s then "-" else "") +:+ fixed_digits grouping digits 0
  | S754_finite s m e =>
      (if s then "-" else "")
      +:+ fixed_digits grouping digits (scaled_magnitude digits m e)
  end.

(** [format(v, spec)] for a fixed-point spec. *)
Definition py_format_fixed (grouping : bool) (digits : nat) (v : pyval)
    : outcome string :=
  match v with
  | PyNone => Raises TypeError
  | PyStr _ => Raises ValueError
  | PyInt n => x ← py_float n; mret (format_fixed grouping digits x)
  | PyFloat x => mret (format_fixed grouping digits x)
  end.

(** The float literals [1e12], [1e9] and [1e6]. *)
Definition c1e12 : float := of_Z (10 ^ 12).
Definition c1e9 : float := of_Z (10 ^ 9).
Definition c1e6 : float := of_Z (10 ^ 6).

Definition format_market_cap (market_cap : pyval) : outcome string :=
  t ← py_ge market_cap c1e12;
  if t : bool then
    x ← py_truediv market_cap c1e12;
    mret ("$" +:+ format_fixed false 2 x +:+ "T")
  else
    b ← py_ge market_cap c1e9;
    if b : bool then
      x ← py_truediv market_cap c1e9;
      mret ("$" +:+ format_fixed false 2 x +:+ "B")
    else
      m ← py_ge market_cap c1e6;
      if m : bool then
        x ← py_truediv market_cap c1e6;
        mret ("$" +:+ format_fixed false 2 x +:+ "M")
      else
        s ← py_format_fixed true 0 market_cap;
        mret ("$" +:+ s).

(* ===================================================================== *)
(** * Downloads and company information *)
(* ===================================================================== *)

Definition TOP_10_COMPANIES : list (string * string) :=
  [ ("Apple", "AAPL"); ("Microsoft", "MSFT"); ("Alphabet", "GOOGL");
    ("Amazon", "AMZN"); ("NVIDIA", "NVDA"); ("Meta", "META");
    ("Berkshire Hathaway", "BRK-B"); ("Taiwan Semiconductor", "TSM");
    ("Tesla", "TSLA"); ("Broadcom", "AVGO") ].

Definition ALL_WEATHER_ASSETS : list (string * string) :=
  [ ("S&P 500 (주식)", "SPY"); ("장기 국채 (20년+)", "TLT");
    ("중기 국채 (7-10년)", "IEF"); ("금", "GLD"); ("원자재", "DBC") ].

(** The catalogue of pages/추가된 게시판.py. *)
Definition ALL_WEATHER_ETFS : list (string * string) :=
  [ ("미국 장기 국채 (TLT)", "TLT"); ("미국 주식 (VTI)", "VTI");
    ("중기 국채 (IEF)", "IEF"); ("금 (GLD)", "GLD"); ("원자재 (DBC)", "DBC") ].

(** [get_stock_data(ticker, period)], given what [stock.history] did:
    it raised an exception with the given text, or returned a frame.  The
    result is the returned frame, or [None] with an error message shown. *)
Definition get_stock_data (ticker : string) (history : string + DataFrame)
    : option DataFrame * list string :=
  match history with
  | inr data => (Some data, [])
  | inl e => (None, ["'" +:+ ticker +:+ "' 데이터를 가져오는 중 오류 발생: " +:+ e])
  end.

(** The dict that [get_company_info] returns. *)
Record company_info : Type := {
  info_name : pyval;
  info_sector : pyval;
  info_marketCap : pyval;
  info_currentPrice : pyval
}.

(** [info.get(key, default)] *)
Definition info_get (info : gmap string pyval) (key : string) (default : pyval) : pyval :=
  match info !! key with
  | Some v => v
  | None => default
  end.

(** [get_company_info(ticker)], given the provider's info dict, or [None]
    when reading it raised. *)
Definition get_company_info (info : option (gmap string pyval)) : company_info :=
  match info with
  | Some info =>
      {| info_name := info_get info "longName" (PyStr "N/A");
         info_sector := info_get info "sector" (PyStr "N/A");
         info_marketCap := info_get info "marketCap" (PyInt 0);
         info_currentPrice := info_get info "currentPrice" (PyInt 0) |}
  | None =>
      {| info_name := PyStr "N/A";
         info_sector := PyStr "N/A";
         info_marketCap := PyInt 0;
         info_currentPrice := PyInt 0 |}
  end.

(** What [st.metric] and [st.caption] receive for one company; the
    caption shows the sector value after a fixed prefix. *)
Record metric : Type := {
  metric_label : string;
  metric_value : string;
  metric_delta : string;
  caption_sector : pyval
}.

Definition company_metric (company : string) (info : company_info) : outcome metric :=
  value ← py_format_fixed false 2 (info_currentPrice info);
  cap ← format_market_cap (info_marketCap info);
  mret {| metric_label := company;
          metric_value := "$" +:+ value;
          metric_delta := "시총: " +:+ cap;
          caption_sector := info_sector info |}.

(** The loop over [enumerate(selected_companies)]: the column index and
    the metric of every company that has information. *)
Fixpoint company_metrics_from (i : nat) (selected : list string)
    (infos : list (string * company_info)) : outcome (list (nat * metric)) :=
  match selected with
  | [] => mret []
  | company :: rest =>
      match dict_get infos company with
      | Some info =>
          m ← company_metric company info;
          ms ← company_metrics_from (S i) rest infos;
          mret ((i, m) :: ms)
      | None => company_metrics_from (S i) rest infos
      end
  end.

(** What the loading loop of the company page has collected. *)
Record company_state : Type := {
  stock_data : list (string * DataFrame);
  company_infos : list (string * company_info);
  company_warnings : list string
}.

Definition company_warning (company : string) : string :=
  "선택한 '" +:+ company +:+ "'의 데이터를 불러올 수 없습니다.".

(** One turn of the loop over the selected companies; [fetch] and
    [info_of] give, for a ticker, what [get_stock_data] returns and what
    the provider's info lookup did. *)
Definition load_company (fetch : string → option DataFrame)
    (info_of : string → option (gmap string pyval)) (company : string)
    (st : company_state) : result company_state :=
  ticker ← of_option (KeyError company) (dict_get TOP_10_COMPANIES company);
  let data := fetch ticker in
  let info := get_company_info (info_of ticker) in
  let skipped :=
    {| stock_data := stock_data st;
       company_infos := company_infos st;
       company_warnings := company_warnings st ++ [company_warning company] |} in
  match data with
  | Some data =>
      if negb (empty data) then
        mret {| stock_data := dict_set (stock_data st) company data;
                company_infos := dict_set (company_infos st) company info;
                company_warnings := company_warnings st |}
      else mret skipped
  | None => mret skipped
  end.

Fixpoint load_companies (fetch : string → option DataFrame)
    (info_of : string → option (gmap string pyval)) (selected : list string)
    (st : company_state) : result company_state :=
  match selected with
  | [] => mret st
  | company :: rest =>
      st' ← load_company fetch info_of company st;
      load_companies fetch info_of rest st'
  end.

Definition no_companies : company_state :=
  {| stock_data := []; company_infos := []; company_warnings := [] |}.

(** The loading loop of the all-weather page. *)
Fixpoint load_aw_assets (fetch : string → option DataFrame)
    (assets : list (string * string)) (st : aw_state) : result aw_state :=
  match assets with
  | [] => mret st
  | (asset_name, ticker) :: rest =>
      st' ← load_aw_asset asset_name ticker (fetch ticker) st;
      load_aw_assets fetch rest st'
  end.

Definition no_assets : aw_state := {| aw_data := []; warnings := [] |}.

(** The loop that fills [aw_performance_data]. *)
Fixpoint aw_performance_data (frames : list (string * DataFrame))
    : result (list aw_performance) :=
  match frames with
  | [] => mret []
  | (asset_name, data) :: rest =>
      if (0 <? len data)%nat then
        row ← aw_summarize asset_name data;
        rows ← aw_performance_data rest;
        mret (row :: rows)
      else aw_performance_data rest
  end.

(** The loading loop of pages/추가된 게시판.py: frames are stored as they
    come, and nothing is shown for an asset without data. *)
Fixpoint load_etfs (fetch : string → option DataFrame)
    (etfs : list (string * string)) (frames : list (string * DataFrame))
    : list (string * DataFrame) :=
  match etfs with
  | [] => frames
  | (label, ticker) :: rest =>
      let frames' :=
        match fetch ticker with
        | Some df => if negb (empty df) then dict_set frames label df else frames
        | None => frames
        end in
      load_etfs fetch rest frames'
  end.

(** Its table, one row per stored frame. *)
Fixpoint etf_performance_data (frames : list (string * DataFrame))
    : result (list etf_performance) :=
  match frames with
  | [] => mret []
  | (label, data) :: rest =>
      row ← etf_summarize label data;
      rows ← etf_performance_data rest;
      mret (row :: rows)
  end.

(* ===================================================================== *)
(** * Charts *)
(* ===================================================================== *)

(** A plotly palette, a non-empty list of colours. *)
Record palette : Type := {
  first_color : string;
  more_colors : list string
}.

Definition palette_colors (p : palette) : list string :=
  first_color p :: more_colors p.

(** A line trace: its points, name and colour (the constant styling of
    the traces, their width and hover text, is left out). *)
Record scatter : Type := {
  sc_x : list Z;
  sc_y : list float;
  sc_name : string;
  sc_color : string
}.

(** [colors[i % len(colors)]] *)
Definition cycle_color (p : palette) (i : nat) : result string :=
  of_option IndexError
    (palette_colors p !! (i mod length (palette_colors p))%nat).

(** The traces of a line chart: one per frame, in the order of the dict,
    the [i]-th drawn from [column] in the [i]-th colour of the cycle. *)
Fixpoint scatter_traces_from (p : palette) (column : string) (i : nat)
    (frames : list (string * DataFrame)) : result (list scatter) :=
  match frames with
  | [] => mret []
  | (name, data) :: rest =>
      y ← getitem data column;
      color ← cycle_color p i;
      ts ← scatter_traces_from p column (S i) rest;
      mret ({| sc_x := index data; sc_y := y; sc_name := name; sc_color := color |} :: ts)
  end.

(** A line chart with the crisis bands of the display range. *)
Definition line_chart (p : palette) (column : string)
    (frames : list (string * DataFrame)) (start_date end_date : Z)
    : result (list scatter * Figure) :=
  ts ← scatter_traces_from p column 0 frames;
  mret (ts, add_crisis_regions {| traces := sc_name <$> ts; shapes := [] |}
              start_date end_date).

(** The candlestick chart of the first selected company. *)
Definition candlestick_chart (selected : list string)
    (frames : list (string * DataFrame)) (start_date end_date : Z)
    : result Figure :=
  company ← of_option IndexError (selected !! 0%nat);
  data ← of_option (KeyError company) (dict_get frames company);
  _ ← getitem data "Open";
  _ ← getitem data "High";
  _ ← getitem data "Low";
  _ ← getitem data "Close";
  mret (add_crisis_regions {| traces := [company]; shapes := [] |}
          start_date end_date).

(** What stops the page: an exception of a lookup, or one of comparing,
    dividing or formatting a value. *)
Inductive page_exn : Type :=
  | LookupExn (e : exn)
  | ValueExn (e : value_exn).

Inductive page_outcome (A : Type) : Type :=
  | Shown (a : A)
  | Failed (e : page_exn).
Arguments Shown {A} a.
Arguments Failed {A} e.

#[global] Instance page_outcome_ret : MRet page_outcome := fun _ a => Shown a.
#[global] Instance page_outcome_bind : MBind page_outcome := fun _ _ f m =>
  match m with
  | Shown a => f a
  | Failed e => Failed e
  end.

Definition of_result {A : Type} (r : result A) : page_outcome A :=
  match r with
  | Ok a => Shown a
  | Raise e => Failed (LookupExn e)
  end.

Definition of_outcome {A : Type} (r : outcome A) : page_outcome A :=
  match r with
  | Returns a => Shown a
  | Raises e => Failed (ValueExn e)
  end.

(** The company page from the end of the loading loop to its chart, with
    the candlestick chart chosen.  When nothing was loaded it shows an
    error and stops, with no metric and no chart.  Otherwise it fills the
    metrics row, one column per selected company, and then draws the
    chart; it shows the metrics and the figure. *)
Definition candlestick_page (selected : list string) (st : company_state)
    (start_date end_date : Z) : page_outcome (option (list (nat * metric) * Figure)) :=
  match stock_data st with
  | [] => mret None
  | _ :: _ =>
      ms ← of_outcome (company_metrics_from 0 selected (company_infos st));
      fig ← of_result (candlestick_chart selected (stock_data st) start_date end_date);
      mret (Some (ms, fig))
  end.

(** Whether the download of a ticker gave a frame with rows and columns. *)
Definition has_data (fetch : string → option DataFrame) (ticker : string) : bool :=
  match fetch ticker with
  | Some data => negb (empty data)
  | None => false
  end.

Definition company_has_data (fetch : string → option DataFrame) (company : string) : bool :=
  match dict_get TOP_10_COMPANIES company with
  | Some ticker => has_data fetch ticker
  | None => false
  end.

(** A frame as the provider returns it: columns as long as the index,
    one of them Close. *)
Definition priced (data : DataFrame) : Prop :=
  well_formed data ∧ is_Some (columns data !! "Close").

(** What the company loop keeps for every stored frame: it is the
    non-empty frame downloaded for the company's ticker. *)
Definition fetched_item (fetch : string → option DataFrame)
    (item : string * DataFrame) : Prop :=
  ∃ ticker, dict_get TOP_10_COMPANIES item.1 = Some ticker ∧
            fetch ticker = Some item.2 ∧ empty item.2 = false.


(** Sample downloads: Apple's and gold's succeed, Microsoft's returns a
    frame without rows, every other one raises. *)
Definition sample_history (ticker : string) : string + DataFrame :=
  if String.eqb ticker "AAPL" then inr (frame_of_closes [100; 110])
  else if String.eqb ticker "GLD" then inr (frame_of_closes [50; 110; 90])
  else if String.eqb ticker "MSFT" then inr (frame_of_closes [])
  else inl "HTTP Error 404".

Definition sample_fetch (ticker : string) : option DataFrame :=
  (get_stock_data ticker (sample_history ticker)).1.

Definition sample_info (ticker : string) : option (gmap string pyval) :=
  if String.eqb ticker "AAPL"
  then Some (<["marketCap" := PyInt 3500000000000]> (<["currentPrice" := PyFloat (of_Z 110)]> ∅))
  else None.

(** A frame with neither rows nor columns, and downloads that return it
    for the S&P 500 fund. *)
Definition blank_frame : DataFrame := {| index := []; columns := ∅ |}.

Definition sample_fetch_blank (ticker : string) : option DataFrame :=
  if String.eqb ticker "SPY" then Some blank_frame else sample_fetch ticker.

(** [data'] is [data] with its normalised column. *)
Definition normalized_from (data data' : DataFrame) : Prop :=
  ∃ c0 cs, columns data !! "Close" = Some (c0 :: cs) ∧
           data' = setitem data "Normalized Close" (normalized_close c0 <$> c0 :: cs).

(** What the all-weather loop stores for an asset with data. *)
Definition stored_asset (fetch : string → option DataFrame)
    (asset : string * string) (item : string * DataFrame) : Prop :=
  item.1 = asset.1 ∧
  ∃ data, fetch asset.2 = Some data ∧ empty data = false ∧ normalized_from data item.2.

(** A row of the company table read against its frame. *)
Definition row_of_frame (item : string * DataFrame) (row : performance) : Prop :=
  perf_name row = item.1 ∧
  ∃ c0 cs cl, columns item.2 !! "Close" = Some (c0 :: cs) ∧
              last (c0 :: cs) = Some cl ∧
              start_price row = c0 ∧ end_price row = cl ∧
              total_return_pct row = total_return c0 cl.


(** A trace read against the frame it was drawn from: its name, its
    points and its place in the colour cycle. *)
Definition trace_of_frame (p : palette) (column : string) (i : nat)
    (item : string * DataFrame) (t : scatter) : Prop :=
  sc_name t = item.1 ∧ sc_x t = index item.2 ∧
  columns item.2 !! column = Some (sc_y t) ∧
  palette_colors p !! (i mod length (palette_colors p))%nat = Some (sc_color t).

(** What the loop of pages/추가된 게시판.py stores for an asset with data:
    the downloaded frame itself, under the asset's label. *)
Definition stored_etf (fetch : string → option DataFrame)
    (etf : string * string) (item : string * DataFrame) : Prop :=
  item.1 = etf.1 ∧ fetch etf.2 = Some item.2 ∧ empty item.2 = false.

(** What the company loop keeps for every stored information dict. *)
Definition info_item (info_of : string → option (gmap string pyval))
    (item : string * company_info) : Prop :=
  ∃ ticker, dict_get TOP_10_COMPANIES item.1 = Some ticker ∧
            item.2 = get_company_info (info_of ticker).

(* ===================================================================== *)
(** * Facts about binary64 arithmetic *)
(* ===================================================================== *)

Section Float64Facts.

Lemma div_eucl_shiftl_self (m : positive) (k : Z) :
  0 <= k → Z.div_eucl (Z.shiftl (Zpos m) k) (Zpos m) = (2 ^ k, 0).
Proof.
  intros Hk.
  pose proof (Z.div_eucl_eq (Z.shiftl (Zpos m) k) (Zpos m)) as Heq.
  assert (Hd : Z.shiftl (Zpos m) k / Zpos m = 2 ^ k).
  { rewrite Z.shiftl_mul_pow2 by exact Hk.
    rewrite Z.mul_comm. apply Z.div_mul. discriminate. }
  assert (Hm : Z.shiftl (Zpos m) k mod Zpos m = 0).
  { rewrite Z.shiftl_mul_pow2 by exact Hk.
    rewrite Z.mul_comm. apply Z.mod_mul. discriminate. }
  unfold Z.div, Z.modulo in Hd, Hm.
  destruct (Z.div_eucl (Z.shiftl (Zpos m) k) (Zpos m)) as [q r].
  simpl in Hd, Hm. subst. reflexivity.
Qed.

Lemma new_location_zero (n : Z) : new_location n 0 = loc_Exact.
Proof.
  unfold new_location, new_location_even, new_location_odd.
  destruct (Z.even n); reflexivity.
Qed.

(** A finite nonzero number divided by itself is exactly one. *)
Lemma div_self (s : bool) (m : positive) (e : Z) :
  div (S754_finite s m e) (S754_finite s m e) = of_Z 1.
Proof.
  unfold div, SFdiv, SFdiv_core_binary.
  rewrite !Z.sub_diag, xorb_nilpotent.
  change (0 - Z.min (fexp prec emax 0) 0) with 53.
  change (Z.min (fexp prec emax 0) 0) with (-53).
  cbv iota beta.
  change IntDef.Z.div_eucl with Z.div_eucl.
  rewrite div_eucl_shiftl_self by lia.
  rewrite new_location_zero.
  reflexivity.
Qed.

Lemma mul_comm (x y : float) : mul x y = mul y x.
Proof.
  unfold mul.
  destruct x as [sx|sx| |sx mx ex], y as [sy|sy| |sy my ey]; simpl;
    rewrite ?(xorb_comm sx sy); try reflexivity.
  by rewrite (Pos.mul_comm mx my), (Z.add_comm ex ey).
Qed.

(** The difference of a finite number with itself is +0. *)
Lemma sub_self (x : float) : is_finite x = true → sub x x = zero.
Proof.
  destruct x as [s|s| |s m e]; try discriminate; intros _.
  - by destruct s.
  - unfold sub, SFsub, shl_align.
    rewrite Z.min_id, !Z.sub_diag. reflexivity.
Qed.

Lemma mul_zero_hundred (s : bool) : mul (S754_zero s) hundred = S754_zero s.
Proof. by destruct s. Qed.

Lemma normalized_close_self (x : float) :
  is_finite x = true → is_zero x = false → normalized_close x x = hundred.
Proof.
  destruct x as [s|s| |s m e]; try discriminate; intros _ _.
  unfold normalized_close, normalized_close_with. by rewrite div_self.
Qed.

Lemma total_return_self (s : bool) (m : positive) (e : Z) :
  total_return (S754_finite s m e) (S754_finite s m e) = S754_zero s.
Proof.
  unfold total_return, total_return_with.
  rewrite sub_self by reflexivity.
  change (div zero (S754_finite s m e)) with (S754_zero (xorb false s)).
  rewrite xorb_false_l. apply mul_zero_hundred.
Qed.

(** Division by a zero never yields a finite number. *)
Lemma div_by_zero (x y : float) :
  is_zero y = true → is_finite (div x y) = false.
Proof. destruct y; try discriminate; intros _; by destruct x. Qed.

Lemma div_by_zero_cases (x y : float) :
  is_zero y = true →
  div x y = (if is_nan x || is_zero x then nan
             else S754_infinity (xorb (sign x) (sign y))).
Proof. destruct y; try discriminate; intros _; by destruct x. Qed.

Lemma mul_hundred_not_finite (x : float) :
  is_finite x = false → is_finite (mul x hundred) = false.
Proof. destruct x; try discriminate; intros _; reflexivity. Qed.

Lemma mul_hundred_cases (x : float) :
  is_finite x = false → mul x hundred = x.
Proof. destruct x as [s|s| |s m e]; try discriminate; intros _; try reflexivity. by destruct s. Qed.

(** ** The order of binary64 numbers *)

Lemma leb_finite (s1 s2 : bool) (m1 m2 : positive) (e1 e2 : Z) :
  leb (S754_finite s1 m1 e1) (S754_finite s2 m2 e2) = true ↔
  match s1, s2 with
  | true, false => True
  | false, true => False
  | false, false => lex_le e1 m1 e2 m2
  | true, true => lex_le e2 m2 e1 m1
  end.
Proof.
  unfold leb, SFleb, SFcompare, lex_le.
  change (Pos.compare_cont Eq m1 m2) with (Pos.compare m1 m2).
  destruct s1, s2; try (split; [done | discriminate || done]);
    destruct (Z.compare_spec e1 e2); destruct (Pos.compare_spec m1 m2);
    simpl; split; intros; try discriminate; try done; try lia.
Qed.

Lemma leb_not_nan (a b : float) :
  leb a b = true → is_nan a = false ∧ is_nan b = false.
Proof. destruct a, b; try discriminate; done. Qed.

Lemma leb_refl (a : float) : is_nan a = false → leb a a = true.
Proof.
  destruct a as [s|s| |s m e]; try discriminate; intros _; try by destruct s.
  apply leb_finite. unfold lex_le. destruct s; lia.
Qed.

Lemma leb_total (a b : float) :
  is_nan a = false → is_nan b = false → leb b a = false → leb a b = true.
Proof.
  destruct a as [sa|sa| |sa ma ea], b as [sb|sb| |sb mb eb];
    try discriminate; intros _ _;
    try (destruct sa; try destruct sb; done);
    try (destruct sb; done).
  intros Hba. apply leb_finite.
  assert (Hn : ¬ leb (S754_finite sb mb eb) (S754_finite sa ma ea) = true)
    by (rewrite Hba; discriminate).
  rewrite leb_finite in Hn. unfold lex_le in *.
  destruct sa, sb; try done; lia.
Qed.

Lemma leb_trans (a b c : float) :
  leb a b = true → leb b c = true → leb a c = true.
Proof.
  destruct a as [sa|sa| |sa ma ea], b as [sb|sb| |sb mb eb],
           c as [sc|sc| |sc mc ec];
    try discriminate;
    try (destruct sa; try destruct sb; try destruct sc; done);
    try (destruct sb; try destruct sc; done);
    try (destruct sa; try destruct sc; done);
    try (destruct sc; done).
  rewrite !leb_finite. unfold lex_le.
  destruct sa, sb, sc; try done; lia.
Qed.

End Float64Facts.

(* ===================================================================== *)
(** * Facts about the pandas reductions *)
(* ===================================================================== *)

Section PandasFacts.

Implicit Types s : list float.

Lemma count_valid_all s :
  Forall (λ x, is_nan x = false) s → count_valid s = length s.
Proof.
  unfold count_valid. induction 1 as [|x s Hx _ IH]; [done|].
  rewrite filter_cons_True by done. simpl. by rewrite IH.
Qed.

Lemma fillna_valid (fill : float) s :
  Forall (λ x, is_nan x = false) s → fillna fill s = s.
Proof.
  unfold fillna. induction 1 as [|x s Hx _ IH]; [done|].
  rewrite fmap_cons, IH, Hx. done.
Qed.

Lemma np_maximum_spec (a b : float) :
  is_nan a = false → is_nan b = false →
  (np_maximum a b = a ∨ np_maximum a b = b) ∧
  leb a (np_maximum a b) = true ∧ leb b (np_maximum a b) = true.
Proof.
  intros Ha Hb. unfold np_maximum. rewrite Ha, orb_false_r.
  destruct (leb b a) eqn:Hba.
  - split; [by left|]. split; [by apply leb_refl | done].
  - split; [by right|]. split; [by apply leb_total | by apply leb_refl].
Qed.

Lemma np_minimum_spec (a b : float) :
  is_nan a = false → is_nan b = false →
  (np_minimum a b = a ∨ np_minimum a b = b) ∧
  leb (np_minimum a b) a = true ∧ leb (np_minimum a b) b = true.
Proof.
  intros Ha Hb. unfold np_minimum. rewrite Ha, orb_false_r.
  destruct (leb a b) eqn:Hab.
  - split; [by left|]. split; [by apply leb_refl | done].
  - split; [by right|]. split; [by apply leb_total | by apply leb_refl].
Qed.

(** Folding [maximum] over valid values returns one of them, above all
    the others. *)
Lemma foldl_maximum s : ∀ x,
  is_nan x = false → Forall (λ c, is_nan c = false) s →
  foldl np_maximum x s ∈ x :: s ∧
  Forall (λ c, leb c (foldl np_maximum x s) = true) (x :: s).
Proof.
  induction s as [|y s IH]; intros x Hx Hs.
  - simpl. split; [apply list_elem_of_here|].
    constructor; [by apply leb_refl | constructor].
  - inversion Hs as [|? ? Hy Hs']; subst. simpl.
    destruct (np_maximum_spec x y Hx Hy) as (Hsel & Hxm & Hym).
    assert (Hm : is_nan (np_maximum x y) = false)
      by (destruct Hsel as [-> | ->]; done).
    destruct (IH _ Hm Hs') as (Hin & Hall).
    inversion Hall as [|? ? Hmr Hrest]; subst. split.
    + apply elem_of_cons in Hin as [Heq | Hin].
      * rewrite Heq. destruct Hsel as [-> | ->].
        -- apply list_elem_of_here.
        -- apply list_elem_of_further, list_elem_of_here.
      * by do 2 apply list_elem_of_further.
    + constructor; [by eapply leb_trans|].
      constructor; [by eapply leb_trans | done].
Qed.

Lemma foldl_minimum s : ∀ x,
  is_nan x = false → Forall (λ c, is_nan c = false) s →
  foldl np_minimum x s ∈ x :: s ∧
  Forall (λ c, leb (foldl np_minimum x s) c = true) (x :: s).
Proof.
  induction s as [|y s IH]; intros x Hx Hs.
  - simpl. split; [apply list_elem_of_here|].
    constructor; [by apply leb_refl | constructor].
  - inversion Hs as [|? ? Hy Hs']; subst. simpl.
    destruct (np_minimum_spec x y Hx Hy) as (Hsel & Hxm & Hym).
    assert (Hm : is_nan (np_minimum x y) = false)
      by (destruct Hsel as [-> | ->]; done).
    destruct (IH _ Hm Hs') as (Hin & Hall).
    inversion Hall as [|? ? Hmr Hrest]; subst. split.
    + apply elem_of_cons in Hin as [Heq | Hin].
      * rewrite Heq. destruct Hsel as [-> | ->].
        -- apply list_elem_of_here.
        -- apply list_elem_of_further, list_elem_of_here.
      * by do 2 apply list_elem_of_further.
    + constructor; [by eapply leb_trans|].
      constructor; [by eapply leb_trans | done].
Qed.

(** [s.max()] of a non-empty NaN-free series is its greatest value. *)
Lemma Series_max_spec (c0 : float) s :
  Forall (λ c, is_nan c = false) (c0 :: s) →
  Series_max (c0 :: s) ∈ c0 :: s ∧
  Forall (λ c, leb c (Series_max (c0 :: s)) = true) (c0 :: s).
Proof.
  intros Hv. unfold Series_max.
  rewrite count_valid_all, fillna_valid by done.
  rewrite decide_False by (simpl; lia).
  inversion Hv; subst. by apply foldl_maximum.
Qed.

Lemma Series_min_spec (c0 : float) s :
  Forall (λ c, is_nan c = false) (c0 :: s) →
  Series_min (c0 :: s) ∈ c0 :: s ∧
  Forall (λ c, leb (Series_min (c0 :: s)) c = true) (c0 :: s).
Proof.
  intros Hv. unfold Series_min.
  rewrite count_valid_all, fillna_valid by done.
  rewrite decide_False by (simpl; lia).
  inversion Hv; subst. by apply foldl_minimum.
Qed.

(** ** The pairwise sum *)

Lemma add_neg_zero_l (x : float) : add (S754_zero true) x = x.
Proof. by destruct x as [[]|[]| |]. Qed.

Lemma pairwise_sum_fuel_short (fuel : nat) (a : list float) :
  (length a < 8)%nat → pairwise_sum_fuel fuel a = foldl add (S754_zero true) a.
Proof.
  intros Hlen. apply Nat.ltb_lt in Hlen.
  destruct fuel; cbn [pairwise_sum_fuel]; by rewrite Hlen.
Qed.

Lemma pairwise_sum_fuel_block (fuel : nat) (a : list float) :
  (8 ≤ length a ≤ 128)%nat → pairwise_sum_fuel fuel a = block_sum a.
Proof.
  intros [Hlo Hhi]. apply Nat.ltb_ge in Hlo. apply Nat.leb_le in Hhi.
  destruct fuel; cbn [pairwise_sum_fuel]; by rewrite Hlo, Hhi.
Qed.

Lemma pairwise_sum_fuel_split (fuel : nat) (a : list float) :
  (128 < length a)%nat →
  pairwise_sum_fuel (S fuel) a =
    add (pairwise_sum_fuel fuel (take (length a / 2 - (length a / 2) mod 8) a))
        (pairwise_sum_fuel fuel (drop (length a / 2 - (length a / 2) mod 8) a)).
Proof.
  intros Hlen. cbn [pairwise_sum_fuel].
  rewrite (proj2 (Nat.ltb_ge _ _)) by lia.
  by rewrite (proj2 (Nat.leb_gt _ _)) by lia.
Qed.

(** The cut of a long array leaves two shorter, non-empty parts. *)
Lemma pairwise_cut_bounds (n : nat) :
  (128 < n)%nat → (0 < n / 2 - (n / 2) mod 8 < n)%nat.
Proof.
  intros Hn.
  pose proof (Nat.mod_upper_bound (n / 2) 8 ltac:(lia)).
  pose proof (Nat.div_mod_eq n 2).
  pose proof (Nat.mod_upper_bound n 2 ltac:(lia)).
  lia.
Qed.

(** The length of the array is fuel enough: with that much or more, the
    recursion never runs out, and the sum does not depend on the fuel. *)
Lemma pairwise_sum_fuel_enough (fuel : nat) : ∀ (fuel' : nat) (a : list float),
  (length a ≤ fuel)%nat → (length a ≤ fuel')%nat →
  pairwise_sum_fuel fuel a = pairwise_sum_fuel fuel' a.
Proof.
  induction fuel as [|fuel IH]; intros fuel' a Hfuel Hfuel'.
  - rewrite !pairwise_sum_fuel_short by lia. done.
  - destruct (decide (length a < 8)%nat) as [Hshort|Hshort].
    { by rewrite !pairwise_sum_fuel_short. }
    destruct (decide (length a ≤ 128)%nat) as [Hblock|Hlong].
    { rewrite !pairwise_sum_fuel_block by lia. done. }
    destruct fuel' as [|fuel']; [lia|].
    rewrite !pairwise_sum_fuel_split by lia.
    pose proof (pairwise_cut_bounds (length a) ltac:(lia)) as Hcut.
    f_equal; apply IH; rewrite ?length_take, ?length_drop; lia.
Qed.

(** The three regimes of [pairwise_sum]. *)
Lemma pairwise_sum_short (a : list float) :
  (length a < 8)%nat → pairwise_sum a = foldl add (S754_zero true) a.
Proof. apply pairwise_sum_fuel_short. Qed.

Lemma pairwise_sum_block (a : list float) :
  (8 ≤ length a ≤ 128)%nat → pairwise_sum a = block_sum a.
Proof. apply pairwise_sum_fuel_block. Qed.

Lemma pairwise_sum_split (a : list float) :
  (128 < length a)%nat →
  pairwise_sum a =
    add (pairwise_sum (take (length a / 2 - (length a / 2) mod 8) a))
        (pairwise_sum (drop (length a / 2 - (length a / 2) mod 8) a)).
Proof.
  intros Hlen. unfold pairwise_sum.
  pose proof (pairwise_cut_bounds (length a) Hlen) as Hcut.
  destruct (length a) as [|fuel] eqn:Hn; [lia|].
  rewrite pairwise_sum_fuel_split by lia. rewrite Hn.
  f_equal; apply pairwise_sum_fuel_enough; rewrite ?length_take, ?length_drop; lia.
Qed.

(** The loop over the blocks keeps eight partial sums and leaves the
    values after the last full block. *)
Lemma add_blocks_spec (blocks : nat) : ∀ r rest : list float,
  length r = 8%nat → (8 * blocks ≤ length rest)%nat →
  length (add_blocks blocks r rest).1 = 8%nat ∧
  (add_blocks blocks r rest).2 = drop (8 * blocks) rest.
Proof.
  induction blocks as [|blocks IH]; intros r rest Hr Hrest; [done|].
  cbn [add_blocks].
  destruct (IH (zip_with add r (take 8 rest)) (drop 8 rest)) as [Hlen Hleft].
  - rewrite length_zip_with, length_take. lia.
  - rewrite length_drop. lia.
  - split; [done|]. rewrite Hleft, drop_drop. f_equal. lia.
Qed.

Lemma block_sum_spec (a : list float) :
  (8 ≤ length a)%nat →
  ∃ r0 r1 r2 r3 r4 r5 r6 r7 : float,
    (add_blocks (length a / 8 - 1) (take 8 a) (drop 8 a)).1 =
      [r0; r1; r2; r3; r4; r5; r6; r7] ∧
    block_sum a =
      foldl add (add (add (add r0 r1) (add r2 r3)) (add (add r4 r5) (add r6 r7)))
        (drop (8 * (length a / 8)) a).
Proof.
  intros Hlen.
  pose proof (Nat.div_mod_eq (length a) 8) as Hdiv.
  assert (1 ≤ length a / 8)%nat as Hq.
  { apply (Nat.Div0.div_le_mono _ _ 8) in Hlen.
    by rewrite Nat.div_same in Hlen by lia. }
  destruct (add_blocks_spec (length a / 8 - 1) (take 8 a) (drop 8 a)) as [Hr Hrest].
  { rewrite length_take. lia. }
  { rewrite length_drop. lia. }
  unfold block_sum.
  destruct (add_blocks (length a / 8 - 1) (take 8 a) (drop 8 a)) as [r rest].
  cbn [fst snd] in Hr, Hrest.
  destruct r as [|r0 [|r1 [|r2 [|r3 [|r4 [|r5 [|r6 [|r7 [|]]]]]]]]]; try discriminate.
  exists r0, r1, r2, r3, r4, r5, r6, r7. split; [done|].
  rewrite Hrest, drop_drop. do 2 f_equal. lia.
Qed.

(** Eight values are added as a balanced tree, nine as that tree plus
    the last value. *)
Lemma np_sum_eight (a0 a1 a2 a3 a4 a5 a6 a7 : float) :
  np_sum [a0; a1; a2; a3; a4; a5; a6; a7] =
    add zero (add (add (add a0 a1) (add a2 a3)) (add (add a4 a5) (add a6 a7))).
Proof. reflexivity. Qed.

(** Fewer than eight values are added from left to right. *)
Lemma np_sum_short (x : float) (xs : list float) :
  (length (x :: xs) < 8)%nat → np_sum (x :: xs) = add zero (foldl add x xs).
Proof.
  intros Hlen. unfold np_sum. rewrite pairwise_sum_short by done.
  cbn [foldl]. by rewrite add_neg_zero_l.
Qed.

(** The order matters: ten times 0.1 sums to exactly 1 pairwise, and to
    the float just below 1 from left to right. *)
Example np_sum_tenths :
  let tenth := div (of_Z 1) (of_Z 10) in
  np_sum (replicate 10 tenth) = of_Z 1 ∧
  foldl add zero (replicate 10 tenth) = S754_finite false 9007199254740991 (-53) ∧
  Series_std (replicate 10 tenth) = zero.
Proof. repeat split; vm_compute; reflexivity. Qed.

(** With a single valid value there is no sample deviation. *)
Lemma Series_std_single (c : float) : Series_std [c] = nan.
Proof.
  unfold Series_std, nanvar, count_valid.
  destruct c as [sc|sc| |sc mc ec]; simpl; try reflexivity.
  all: match goal with |- sqrt (div ?x nan) = _ => by destruct x end.
Qed.

End PandasFacts.

(* ===================================================================== *)
(** * Normalisation *)
(* ===================================================================== *)

Section Normalisation.

Implicit Types (data : DataFrame) (cs : list float).

Lemma iloc_last_cons (c0 : float) cs :
  ∃ c, last (c0 :: cs) = Some c ∧ iloc_last (c0 :: cs) = Ok c.
Proof.
  destruct (last (c0 :: cs)) as [c|] eqn:Hl.
  - exists c. split; [done|]. unfold iloc_last. by rewrite Hl.
  - by apply last_None in Hl.
Qed.

(** On a frame with a non-empty Close column the two statements run to
    completion and store the rebased column. *)
Lemma normalize_ok data (c0 : float) cs :
  columns data !! "Close" = Some (c0 :: cs) →
  normalize data =
    Ok (setitem data "Normalized Close" (normalized_close c0 <$> (c0 :: cs))).
Proof.
  intros Hclose. unfold normalize, getitem. rewrite Hclose. simpl.
  unfold mul_scalar, div_scalar. rewrite <- list_fmap_compose. done.
Qed.

Lemma setitem_other data (name other : string) (values : list float) :
  other ≠ name → columns (setitem data name values) !! other = columns data !! other.
Proof. intros Hne. simpl. by apply lookup_insert_ne. Qed.

Lemma setitem_same data (name : string) (values : list float) :
  columns (setitem data name values) !! name = Some values.
Proof. simpl. apply lookup_insert_eq. Qed.

(** C1. For a frame whose Close column is non-empty and starts with a
    finite nonzero price, [normalize] succeeds and the new column holds,
    at every position, 100 times the quotient of that bar's close by the
    first close (the page divides first and multiplies second, in
    binary64); the first entry is exactly 100. *)
Theorem normalize_rebases_to_100 data (c0 : float) cs :
  columns data !! "Close" = Some (c0 :: cs) →
  is_finite c0 = true →
  is_zero c0 = false →
  ∃ data' normalized,
    normalize data = Ok data' ∧
    columns data' !! "Normalized Close" = Some normalized ∧
    length normalized = length (c0 :: cs) ∧
    (∀ (i : nat) (c : float), (c0 :: cs) !! i = Some c →
       normalized !! i = Some (mul hundred (div c c0))) ∧
    normalized !! 0%nat = Some hundred.
Proof.
  intros Hclose Hfin Hnz.
  exists (setitem data "Normalized Close" (normalized_close c0 <$> (c0 :: cs))),
         (normalized_close c0 <$> (c0 :: cs)).
  split; [by apply normalize_ok|].
  split; [apply setitem_same|].
  split; [by rewrite length_fmap|].
  split.
  - intros i c Hi. rewrite list_lookup_fmap, Hi. simpl.
    unfold normalized_close, normalized_close_with. by rewrite mul_comm.
  - simpl. by rewrite normalized_close_self.
Qed.

Lemma normalize_rebases_to_100_witness :
  ∃ data' normalized,
    normalize (frame_of_closes [50; 110; 90]) = Ok data' ∧
    columns data' !! "Normalized Close" = Some normalized ∧
    length normalized = length (of_Z 50 :: (of_Z <$> [110; 90])) ∧
    (∀ (i : nat) (c : float), (of_Z 50 :: (of_Z <$> [110; 90])) !! i = Some c →
       normalized !! i = Some (mul hundred (div c (of_Z 50)))) ∧
    normalized !! 0%nat = Some hundred.
Proof.
  exact (normalize_rebases_to_100 (frame_of_closes [50; 110; 90])
           (of_Z 50) (of_Z <$> [110; 90]) eq_refl eq_refl eq_refl).
Defined.

(** Closes 50, 110, 90: the rebased column is 100, 220.00000000000003
    and 180, the middle quotient 110/50 being rounded before it is
    multiplied. *)
Example normalize_base_50 :
  ∃ data', normalize (frame_of_closes [50; 110; 90]) = Ok data' ∧
    columns data' !! "Normalized Close" =
      Some [of_Z 100; S754_finite false 7740561859543041 (-45); of_Z 180].
Proof. eexists. split; [by apply normalize_ok|]. vm_compute. reflexivity. Qed.

(** C9. [normalize] keeps the index (the timestamps) and every column
    other than the one it writes: Open, High, Low, Close and Volume are
    what they were, and the columns of the result are those of the input
    plus "Normalized Close". *)
Theorem normalize_preserves_bars data (c0 : float) cs :
  columns data !! "Close" = Some (c0 :: cs) →
  ∃ data',
    normalize data = Ok data' ∧
    index data' = index data ∧
    (∀ name : string, name ≠ "Normalized Close" →
       columns data' !! name = columns data !! name) ∧
    columns data' !! "Open" = columns data !! "Open" ∧
    columns data' !! "High" = columns data !! "High" ∧
    columns data' !! "Low" = columns data !! "Low" ∧
    columns data' !! "Close" = columns data !! "Close" ∧
    columns data' !! "Volume" = columns data !! "Volume" ∧
    dom (columns data') = {["Normalized Close"]} ∪ dom (columns data).
Proof.
  intros Hclose. eexists. split; [by apply normalize_ok|].
  split; [done|].
  split; [intros name Hne; by apply setitem_other|].
  repeat (split; [by apply setitem_other|]).
  simpl. apply dom_insert_L.
Qed.

Lemma normalize_preserves_bars_witness :
  ∃ data',
    normalize (frame_of_closes [50; 110; 90]) = Ok data' ∧
    index data' = index (frame_of_closes [50; 110; 90]) ∧
    (∀ name : string, name ≠ "Normalized Close" →
       columns data' !! name = columns (frame_of_closes [50; 110; 90]) !! name) ∧
    columns data' !! "Open" = columns (frame_of_closes [50; 110; 90]) !! "Open" ∧
    columns data' !! "High" = columns (frame_of_closes [50; 110; 90]) !! "High" ∧
    columns data' !! "Low" = columns (frame_of_closes [50; 110; 90]) !! "Low" ∧
    columns data' !! "Close" = columns (frame_of_closes [50; 110; 90]) !! "Close" ∧
    columns data' !! "Volume" = columns (frame_of_closes [50; 110; 90]) !! "Volume" ∧
    dom (columns data') =
      {["Normalized Close"]} ∪ dom (columns (frame_of_closes [50; 110; 90])).
Proof.
  exact (normalize_preserves_bars (frame_of_closes [50; 110; 90])
           (of_Z 50) [of_Z 110; of_Z 90] eq_refl).
Defined.

(** ** Empty frames *)

Lemma empty_no_rows data : len data = 0%nat → empty data = true.
Proof.
  unfold len, empty. intros Hlen.
  apply nil_length_inv in Hlen. rewrite Hlen. done.
Qed.

(** The claim of C7 fails on the code: the two normalising statements
    raise IndexError on a frame without rows, and the loading loop, which
    guards them, stores no frame at all for such an asset. *)
Lemma normalize_empty_counterexample :
  normalize (frame_of_closes []) = Raise IndexError ∧
  ∃ st', load_aw_asset "금" "GLD" (Some (frame_of_closes []))
           {| aw_data := []; warnings := [] |} = Ok st' ∧
         dict_get (aw_data st') "금" = None.
Proof. split; [reflexivity|]. eexists. split; reflexivity. Qed.

(** C7, amended. A frame without rows, like a failed download, is never
    normalised: the loading loop does not fail, adds no entry for the
    asset and appends one warning. *)
Theorem load_aw_asset_skips_empty (asset_name ticker : string)
    (data : option DataFrame) (st : aw_state) :
  (∀ d, data = Some d → len d = 0%nat) →
  load_aw_asset asset_name ticker data st =
    Ok {| aw_data := aw_data st;
          warnings := warnings st ++ [aw_warning asset_name ticker] |}.
Proof.
  intros Hempty. destruct data as [d|]; [|done].
  unfold load_aw_asset. by rewrite (empty_no_rows d (Hempty d eq_refl)).
Qed.

Lemma load_aw_asset_skips_empty_witness :
  load_aw_asset "금" "GLD" (Some (frame_of_closes []))
    {| aw_data := []; warnings := [] |} =
  Ok {| aw_data := []; warnings := [] ++ [aw_warning "금" "GLD"] |}.
Proof.
  apply (load_aw_asset_skips_empty "금" "GLD" (Some (frame_of_closes []))
           {| aw_data := []; warnings := [] |}).
  intros d Hd. injection Hd as <-. reflexivity.
Defined.

(** A frame with rows is normalised and stored under its asset name. *)
Lemma load_aw_asset_stores data (c0 : float) cs (asset_name ticker : string)
    (st : aw_state) :
  columns data !! "Close" = Some (c0 :: cs) →
  empty data = false →
  ∃ data', normalize data = Ok data' ∧
    load_aw_asset asset_name ticker (Some data) st =
      Ok {| aw_data := dict_set (aw_data st) asset_name data';
            warnings := warnings st |}.
Proof.
  intros Hclose Hne. eexists. split; [by apply normalize_ok|].
  unfold load_aw_asset. rewrite Hne. simpl.
  by rewrite (normalize_ok _ _ _ Hclose).
Qed.

(** The guard of the loop is what keeps [iloc[0]] in range: on a
    well-formed frame with a Close column that passes the guard, the turn
    of the loop cannot raise. *)
Lemma guard_gives_rows data (close : list float) :
  well_formed data →
  empty data = false →
  columns data !! "Close" = Some close →
  ∃ c0 cs, close = c0 :: cs.
Proof.
  intros Hwf Hne Hclose. unfold empty in Hne.
  apply orb_false_iff in Hne as [Hrows _].
  apply bool_decide_eq_false in Hrows.
  specialize (Hwf _ _ Hclose).
  destruct close as [|c0 cs]; [|by eauto].
  destruct (index data); [done | discriminate].
Qed.

Lemma load_aw_asset_total data (close : list float) (asset_name ticker : string)
    (st : aw_state) :
  well_formed data →
  columns data !! "Close" = Some close →
  ∃ st', load_aw_asset asset_name ticker (Some data) st = Ok st'.
Proof.
  intros Hwf Hclose. destruct (empty data) eqn:Hne.
  - unfold load_aw_asset. rewrite Hne. by eexists.
  - destruct (guard_gives_rows data close Hwf Hne Hclose) as (c0 & cs & ->).
    destruct (load_aw_asset_stores data c0 cs asset_name ticker st Hclose Hne)
      as (data' & _ & ->).
    by eexists.
Qed.

(** ** A zero base price *)

Lemma normalized_close_zero_base (c0 c : float) :
  is_zero c0 = true →
  normalized_close c0 c =
    (if is_nan c || is_zero c then nan
     else S754_infinity (xorb (sign c) (sign c0))).
Proof.
  intros Hz. unfold normalized_close, normalized_close_with.
  rewrite (div_by_zero_cases c c0 Hz).
  destruct (is_nan c || is_zero c); [done|].
  by destruct (xorb (sign c) (sign c0)).
Qed.

Lemma total_return_zero_base (c0 c : float) :
  is_zero c0 = true → is_finite (total_return c0 c) = false.
Proof.
  intros Hz. unfold total_return, total_return_with.
  apply mul_hundred_not_finite. by apply div_by_zero.
Qed.

End Normalisation.

(* ===================================================================== *)
(** * Performance summaries *)
(* ===================================================================== *)

Section Summaries.

Implicit Types (data : DataFrame) (cs : list float).

Lemma summarize_ok (company : string) data (c0 cl : float) cs :
  columns data !! "Close" = Some (c0 :: cs) →
  last (c0 :: cs) = Some cl →
  summarize company data =
    Ok {| perf_name := company;
          start_price := c0;
          end_price := cl;
          total_return_pct := total_return c0 cl;
          max_price := Series_max (c0 :: cs);
          min_price := Series_min (c0 :: cs);
          std_dev := Series_std (c0 :: cs) |}.
Proof.
  intros Hclose Hlast. unfold summarize, getitem, iloc_last.
  rewrite Hclose. simpl of_option. cbn [mbind result_bind iloc_first of_option lookup list_lookup].
  rewrite Hlast. reflexivity.
Qed.

Lemma etf_summarize_ok (label : string) data (c0 cl : float) cs :
  columns data !! "Close" = Some (c0 :: cs) →
  last (c0 :: cs) = Some cl →
  etf_summarize label data =
    Ok {| etf_label := label;
          etf_start_price := c0;
          etf_end_price := cl;
          etf_total_return := total_return c0 cl;
          etf_volatility := Series_std (c0 :: cs) |}.
Proof.
  intros Hclose Hlast. unfold etf_summarize, getitem, iloc_last.
  rewrite Hclose. simpl of_option. cbn [mbind result_bind iloc_first of_option lookup list_lookup].
  rewrite Hlast. reflexivity.
Qed.

(** C3. For a frame whose Close column is non-empty and free of NaN,
    [summarize] returns a row whose start price is the first close, whose
    end price is the last close, whose total return is
    ((end - start) / start) * 100, and whose maximum and minimum are
    values of the column that bound all the others.  For the closes
    100, 110, 90 the row is 100, 90, -10, 110, 90. *)
Theorem summarize_row (company : string) data (c0 : float) cs :
  columns data !! "Close" = Some (c0 :: cs) →
  Forall (λ c, is_nan c = false) (c0 :: cs) →
  ∃ row,
    summarize company data = Ok row ∧
    start_price row = c0 ∧
    last (c0 :: cs) = Some (end_price row) ∧
    total_return_pct row =
      mul (div (sub (end_price row) (start_price row)) (start_price row)) hundred ∧
    max_price row ∈ c0 :: cs ∧
    Forall (λ c, leb c (max_price row) = true) (c0 :: cs) ∧
    min_price row ∈ c0 :: cs ∧
    Forall (λ c, leb (min_price row) c = true) (c0 :: cs) ∧
    summarize company (frame_of_closes [100; 110; 90]) =
      Ok {| perf_name := company;
            start_price := of_Z 100;
            end_price := of_Z 90;
            total_return_pct := of_Z (-10);
            max_price := of_Z 110;
            min_price := of_Z 90;
            std_dev := of_Z 10 |}.
Proof.
  intros Hclose Hvalid.
  destruct (iloc_last_cons c0 cs) as (cl & Hlast & _).
  eexists. split; [by apply summarize_ok|]. simpl.
  split; [done|]. split; [done|]. split; [done|].
  destruct (Series_max_spec c0 cs Hvalid) as [Hmax1 Hmax2].
  destruct (Series_min_spec c0 cs Hvalid) as [Hmin1 Hmin2].
  repeat (split; [done|]).
  vm_compute. reflexivity.
Qed.

Lemma summarize_row_witness :
  ∃ row,
    summarize "AAPL" (frame_of_closes [100; 110; 90]) = Ok row ∧
    start_price row = of_Z 100 ∧
    last (of_Z 100 :: [of_Z 110; of_Z 90]) = Some (end_price row) ∧
    total_return_pct row =
      mul (div (sub (end_price row) (start_price row)) (start_price row)) hundred ∧
    max_price row ∈ of_Z 100 :: [of_Z 110; of_Z 90] ∧
    Forall (λ c, leb c (max_price row) = true) (of_Z 100 :: [of_Z 110; of_Z 90]) ∧
    min_price row ∈ of_Z 100 :: [of_Z 110; of_Z 90] ∧
    Forall (λ c, leb (min_price row) c = true) (of_Z 100 :: [of_Z 110; of_Z 90]) ∧
    summarize "AAPL" (frame_of_closes [100; 110; 90]) =
      Ok {| perf_name := "AAPL";
            start_price := of_Z 100;
            end_price := of_Z 90;
            total_return_pct := of_Z (-10);
            max_price := of_Z 110;
            min_price := of_Z 90;
            std_dev := of_Z 10 |}.
Proof.
  apply (summarize_row "AAPL" (frame_of_closes [100; 110; 90])
           (of_Z 100) [of_Z 110; of_Z 90]).
  - reflexivity.
  - repeat constructor.
Defined.

(** The table has no row for a frame without rows, and one row for a
    frame whose Close column is non-empty. *)
Lemma performance_data_skips_empty (company : string) data
    (rest : list (string * DataFrame)) :
  len data = 0%nat →
  performance_data ((company, data) :: rest) = performance_data rest.
Proof. intros Hlen. simpl. by rewrite Hlen. Qed.

Lemma performance_data_row (company : string) data (c0 cl : float) cs
    (rest : list (string * DataFrame)) (rows : list performance) :
  (0 < len data)%nat →
  columns data !! "Close" = Some (c0 :: cs) →
  last (c0 :: cs) = Some cl →
  performance_data rest = Ok rows →
  ∃ row, summarize company data = Ok row ∧
         performance_data ((company, data) :: rest) = Ok (row :: rows).
Proof.
  intros Hlen Hclose Hlast Hrest. eexists. split; [by apply summarize_ok|].
  cbn [performance_data]. apply Nat.ltb_lt in Hlen. rewrite Hlen.
  rewrite (summarize_ok company data c0 cl cs Hclose Hlast).
  cbn [mbind result_bind]. rewrite Hrest. reflexivity.
Qed.

(** ** The standard deviation *)

(** The claim of C2 fails on the code: the deviation of a single close is
    NaN, not 0, and the deviation of the closes 1, 3 is the square root
    of 2 (divisor n - 1), where the population estimator gives 1. *)
Lemma volatility_counterexample :
  (∃ row, summarize "AAPL" (frame_of_closes [100]) = Ok row ∧
          std_dev row = nan ∧ eqb (std_dev row) zero = false) ∧
  (∃ row, etf_summarize "TLT" (frame_of_closes [100]) = Ok row ∧
          etf_volatility row = nan) ∧
  Series_std [of_Z 1; of_Z 3] = sqrt (of_Z 2) ∧
  sqrt (nanvar 0 [of_Z 1; of_Z 3]) = of_Z 1.
Proof.
  split; [eexists; split; [reflexivity | split; reflexivity]|].
  split; [eexists; split; reflexivity|].
  split; reflexivity.
Qed.

(** On valid values [std] is the square root of the sum of squared
    deviations from the mean divided by n - 1. *)
Lemma Series_std_sample (s : list float) :
  Forall (λ c, is_nan c = false) s →
  (2 ≤ length s)%nat →
  Series_std s =
    sqrt (div (np_sum ((λ x, mul (sub (div (np_sum s) (of_nat (length s))) x)
                                 (sub (div (np_sum s) (of_nat (length s))) x)) <$> s))
              (sub (of_nat (length s)) (of_nat 1))).
Proof.
  intros Hvalid Hlen. unfold Series_std, nanvar.
  rewrite count_valid_all, fillna_valid by done.
  rewrite !decide_False by lia.
  do 3 f_equal. apply Forall_fmap_ext.
  eapply Forall_impl; [exact Hvalid|]. intros x Hx. simpl. by rewrite Hx.
Qed.

(** C2, amended.  On a frame whose closes are valid numbers, both
    summaries return a row, and its volatility is the sample standard
    deviation of the closes, the default of pandas' [std].  With two or
    more closes it is the square root of the sum of the squared
    deviations from the mean divided by n - 1 (not by n).  With a single
    close it is NaN, not 0; if that close is finite and nonzero, the
    total return is zero and the start, end, maximum and minimum prices
    are all that close. *)
Theorem summarize_sample_volatility (name : string) data (c0 : float) cs :
  columns data !! "Close" = Some (c0 :: cs) →
  Forall (λ x, is_nan x = false) (c0 :: cs) →
  ∃ row etf_row,
    summarize name data = Ok row ∧
    etf_summarize name data = Ok etf_row ∧
    etf_volatility etf_row = std_dev row ∧
    ((2 ≤ length (c0 :: cs))%nat →
     let n := of_nat (length (c0 :: cs)) in
     let mean := div (np_sum (c0 :: cs)) n in
     std_dev row =
       sqrt (div (np_sum ((λ x, mul (sub mean x) (sub mean x)) <$> c0 :: cs))
                 (sub n (of_nat 1)))) ∧
    (cs = [] →
     std_dev row = nan ∧ eqb (std_dev row) zero = false ∧
     (is_finite c0 = true → is_zero c0 = false →
      row = {| perf_name := name;
               start_price := c0;
               end_price := c0;
               total_return_pct := S754_zero (sign c0);
               max_price := c0;
               min_price := c0;
               std_dev := nan |} ∧
      etf_row = {| etf_label := name;
                   etf_start_price := c0;
                   etf_end_price := c0;
                   etf_total_return := S754_zero (sign c0);
                   etf_volatility := nan |} ∧
      eqb (total_return_pct row) zero = true)).
Proof.
  intros Hclose Hvalid.
  destruct (iloc_last_cons c0 cs) as (cl & Hlast & _).
  do 2 eexists.
  split; [by apply (summarize_ok name data c0 cl cs)|].
  split; [by apply (etf_summarize_ok name data c0 cl cs)|].
  split; [done|]. cbn [std_dev]. split.
  - intros Hlen. by apply Series_std_sample.
  - intros ->. rewrite Series_std_single. do 2 (split; [done|]).
    intros Hfin Hnz. injection Hlast as <-.
    destruct c0 as [sc|sc| |sc mc ec]; try discriminate.
    by rewrite total_return_self.
Qed.

Lemma summarize_sample_volatility_witness :
  (∃ row etf_row,
     summarize "AAPL" (frame_of_closes [1; 3]) = Ok row ∧
     etf_summarize "AAPL" (frame_of_closes [1; 3]) = Ok etf_row ∧
     std_dev row = sqrt (of_Z 2) ∧ etf_volatility etf_row = sqrt (of_Z 2)) ∧
  (∃ row etf_row,
     summarize "AAPL" (frame_of_closes [100]) = Ok row ∧
     etf_summarize "AAPL" (frame_of_closes [100]) = Ok etf_row ∧
     std_dev row = nan ∧ etf_volatility etf_row = nan ∧
     total_return_pct row = zero ∧ max_price row = of_Z 100 ∧
     min_price row = of_Z 100).
Proof.
  split.
  - destruct (summarize_sample_volatility "AAPL" (frame_of_closes [1; 3])
                (of_Z 1) [of_Z 3] eq_refl ltac:(repeat constructor))
      as (row & etf_row & Hrow & Hetf & Heq & Hsample & _).
    exists row, etf_row. do 2 (split; [assumption|]).
    rewrite Heq, (Hsample ltac:(simpl; lia)). split; reflexivity.
  - destruct (summarize_sample_volatility "AAPL" (frame_of_closes [100])
                (of_Z 100) [] eq_refl ltac:(repeat constructor))
      as (row & etf_row & Hrow & Hetf & Heq & _ & Hsingle).
    destruct (Hsingle eq_refl) as (_ & _ & Hfields).
    destruct (Hfields eq_refl eq_refl) as (Hr & He & _).
    exists row, etf_row. do 2 (split; [assumption|]).
    rewrite Hr, He. repeat split.
Defined.

End Summaries.

(* ===================================================================== *)
(** * A zero base price, and the two total returns *)
(* ===================================================================== *)

Section BasePrice.

Implicit Types (data : DataFrame) (cs : list float).

(** The claim of C6 fails on the code: with the closes 0, 5 nothing is
    raised; the rebased column is NaN, +inf and the total return is
    +inf. *)
Lemma zero_base_counterexample :
  (∃ data', normalize (frame_of_closes [0; 5]) = Ok data' ∧
            columns data' !! "Normalized Close" = Some [nan; inf]) ∧
  (∃ row, summarize "AAPL" (frame_of_closes [0; 5]) = Ok row ∧
          total_return_pct row = inf).
Proof.
  split; eexists; (split; [reflexivity|]); reflexivity.
Qed.

(** C6, amended. A zero first close is not signalled.  [normalize]
    succeeds and every entry of the rebased column is NaN (where the
    close is zero or NaN) or an infinity (elsewhere); [summarize]
    succeeds and its total return is NaN or an infinity. *)
Theorem zero_base_not_signalled (name : string) data (c0 : float) cs :
  columns data !! "Close" = Some (c0 :: cs) →
  is_zero c0 = true →
  (∃ data' normalized,
     normalize data = Ok data' ∧
     columns data' !! "Normalized Close" = Some normalized ∧
     Forall (λ x, is_finite x = false) normalized ∧
     ∀ (i : nat) (c : float), (c0 :: cs) !! i = Some c →
       normalized !! i =
         Some (if is_nan c || is_zero c then nan
               else S754_infinity (xorb (sign c) (sign c0)))) ∧
  (∃ row,
     summarize name data = Ok row ∧
     start_price row = c0 ∧
     is_finite (total_return_pct row) = false).
Proof.
  intros Hclose Hz. split.
  - exists (setitem data "Normalized Close" (normalized_close c0 <$> (c0 :: cs))),
           (normalized_close c0 <$> (c0 :: cs)).
    split; [by apply normalize_ok|].
    split; [apply setitem_same|].
    split.
    + apply Forall_fmap, Forall_true. intros c. simpl.
      rewrite (normalized_close_zero_base c0 c Hz).
      by destruct (is_nan c || is_zero c).
    + intros i c Hi. rewrite list_lookup_fmap, Hi. simpl.
      by rewrite (normalized_close_zero_base c0 c Hz).
  - destruct (iloc_last_cons c0 cs) as (cl & Hlast & _).
    eexists. split; [by apply summarize_ok|]. simpl.
    split; [done|]. by apply total_return_zero_base.
Qed.

Lemma zero_base_not_signalled_witness :
  (∃ data' normalized,
     normalize (frame_of_closes [0; 5]) = Ok data' ∧
     columns data' !! "Normalized Close" = Some normalized ∧
     Forall (λ x, is_finite x = false) normalized ∧
     ∀ (i : nat) (c : float), (of_Z 0 :: [of_Z 5]) !! i = Some c →
       normalized !! i =
         Some (if is_nan c || is_zero c then nan
               else S754_infinity (xorb (sign c) (sign (of_Z 0))))) ∧
  (∃ row,
     summarize "AAPL" (frame_of_closes [0; 5]) = Ok row ∧
     start_price row = of_Z 0 ∧
     is_finite (total_return_pct row) = false).
Proof.
  exact (zero_base_not_signalled "AAPL" (frame_of_closes [0; 5])
           (of_Z 0) [of_Z 5] eq_refl eq_refl).
Defined.

(** ** The direct and the normalised total return *)

Lemma iloc_last_fmap (f : float → float) (s : list float) (cl : float) :
  last s = Some cl → iloc_last (f <$> s) = Ok (f cl).
Proof. intros Hlast. unfold iloc_last. by rewrite fmap_last, Hlast. Qed.

Lemma aw_summarize_normalized (asset_name : string) data (c0 cl : float) cs :
  columns data !! "Close" = Some (c0 :: cs) →
  last (c0 :: cs) = Some cl →
  aw_summarize asset_name
    (setitem data "Normalized Close" (normalized_close c0 <$> (c0 :: cs))) =
  Ok {| aw_name := asset_name;
        initial_actual_price := c0;
        current_actual_price := cl;
        initial_normalized_price := normalized_close c0 c0;
        current_normalized_price := normalized_close c0 cl;
        aw_total_return := sub (normalized_close c0 cl) (normalized_close c0 c0) |}.
Proof.
  intros Hclose Hlast. unfold aw_summarize, getitem.
  rewrite setitem_same, setitem_other, Hclose by done.
  cbn [of_option mbind result_bind].
  rewrite (iloc_last_fmap _ _ _ Hlast).
  change (iloc_first (normalized_close c0 <$> c0 :: cs))
    with (Ok (normalized_close c0 c0)).
  cbn [mbind result_bind].
  unfold iloc_last. rewrite Hlast. reflexivity.
Qed.

(** The claim of C10 fails on the code: for the closes 160, 161 the
    company table computes 0.625 and the all-weather table
    0.6250000000000142. *)
Lemma total_return_counterexample :
  ∃ row data' aw_row,
    summarize "SPY" (frame_of_closes [160; 161]) = Ok row ∧
    normalize (frame_of_closes [160; 161]) = Ok data' ∧
    aw_summarize "SPY" data' = Ok aw_row ∧
    total_return_pct row = S754_finite false 5629499534213120 (-53) ∧
    aw_total_return aw_row = S754_finite false 5629499534213248 (-53) ∧
    eqb (total_return_pct row) (aw_total_return aw_row) = false.
Proof.
  do 3 eexists. repeat (split; [reflexivity|]). reflexivity.
Qed.

(** C10, amended.  For a frame whose Close column starts with a finite
    nonzero price, the company table computes the direct formula
    ((last - first) / first) * 100 and the all-weather table computes the
    normalised difference ((last / first) * 100) - 100, the first
    normalised close being exactly 100; both are evaluated in binary64,
    where their values need not be equal.  Evaluated in exact arithmetic
    the same two formulas are equal. *)
Theorem total_return_two_formulas (name : string) data (c0 : float) cs :
  columns data !! "Close" = Some (c0 :: cs) →
  is_finite c0 = true →
  is_zero c0 = false →
  (∃ row data' aw_row cl,
     last (c0 :: cs) = Some cl ∧
     summarize name data = Ok row ∧
     normalize data = Ok data' ∧
     aw_summarize name data' = Ok aw_row ∧
     total_return_pct row = total_return_with sub div mul hundred c0 cl ∧
     aw_total_return aw_row = normalized_return_with sub div mul hundred c0 cl ∧
     initial_normalized_price aw_row = hundred ∧
     aw_total_return aw_row = sub (mul (div cl c0) hundred) hundred) ∧
  (∀ first last : Q, ¬ (first == 0)%Q →
     (total_return_with Qminus Qdiv Qmult (100 # 1) first last ==
      normalized_return_with Qminus Qdiv Qmult (100 # 1) first last)%Q).
Proof.
  intros Hclose Hfin Hnz. split.
  - destruct (iloc_last_cons c0 cs) as (cl & Hlast & _).
    eexists _, _, _, cl. split; [done|].
    split; [by apply summarize_ok|].
    split; [by apply normalize_ok|].
    split; [by apply aw_summarize_normalized|]. simpl.
    split; [done|]. split; [done|].
    rewrite (normalized_close_self c0 Hfin Hnz). done.
  - intros first last Hne.
    unfold total_return_with, normalized_return_with, normalized_close_with.
    field. exact Hne.
Qed.

Lemma total_return_two_formulas_witness :
  (∃ row data' aw_row cl,
     last (of_Z 160 :: [of_Z 161]) = Some cl ∧
     summarize "SPY" (frame_of_closes [160; 161]) = Ok row ∧
     normalize (frame_of_closes [160; 161]) = Ok data' ∧
     aw_summarize "SPY" data' = Ok aw_row ∧
     total_return_pct row = total_return_with sub div mul hundred (of_Z 160) cl ∧
     aw_total_return aw_row =
       normalized_return_with sub div mul hundred (of_Z 160) cl ∧
     initial_normalized_price aw_row = hundred ∧
     aw_total_return aw_row = sub (mul (div cl (of_Z 160)) hundred) hundred) ∧
  (∀ first last : Q, ¬ (first == 0)%Q →
     (total_return_with Qminus Qdiv Qmult (100 # 1) first last ==
      normalized_return_with Qminus Qdiv Qmult (100 # 1) first last)%Q).
Proof.
  exact (total_return_two_formulas "SPY" (frame_of_closes [160; 161])
           (of_Z 160) [of_Z 161] eq_refl eq_refl eq_refl).
Defined.

End BasePrice.

(* ===================================================================== *)
(** * The crisis overlay *)
(* ===================================================================== *)

Section Overlay.

Implicit Types (items : list (string * crisis)) (fig : Figure).

(** The loop appends to the shapes of the figure and leaves its traces. *)
Lemma add_crisis_regions_in_shapes items : ∀ fig (start_date end_date : Z),
  traces (add_crisis_regions_in items fig start_date end_date) = traces fig ∧
  shapes (add_crisis_regions_in items fig start_date end_date) =
    shapes fig ++
    (item_vrect <$> List.filter (item_overlaps start_date end_date) items).
Proof.
  induction items as [|[name dates] rest IH]; intros fig start_date end_date.
  - simpl. by rewrite app_nil_r.
  - cbn [add_crisis_regions_in List.filter].
    unfold item_overlaps at 1. cbn [snd].
    destruct (overlaps dates start_date end_date).
    + destruct (IH (add_vrect fig (crisis_vrect name dates)) start_date end_date)
        as [-> ->].
      simpl. by rewrite <- app_assoc.
    + apply IH.
Qed.

Lemma overlapping_windows_filter items (start_date end_date : Z) :
  overlapping_windows items start_date end_date =
    item_vrect <$> List.filter (item_overlaps start_date end_date) items.
Proof.
  unfold overlapping_windows.
  by destruct (add_crisis_regions_in_shapes items empty_figure start_date end_date)
    as [_ ->].
Qed.

(** The function of the page, on its own catalogue. *)
Lemma add_crisis_regions_shapes fig (start_date end_date : Z) :
  shapes (add_crisis_regions fig start_date end_date) =
    shapes fig ++ overlapping_windows CRISIS_PERIODS start_date end_date.
Proof.
  unfold add_crisis_regions. rewrite overlapping_windows_filter.
  by destruct (add_crisis_regions_in_shapes CRISIS_PERIODS fig start_date end_date)
    as [_ ->].
Qed.

Lemma overlaps_iff (dates : crisis) (start_date end_date : Z) :
  overlaps dates start_date end_date = true ↔
  ¬ (crisis_end dates < start_date ∨ crisis_start dates > end_date).
Proof.
  unfold overlaps.
  rewrite negb_true_iff, orb_false_iff, Z.ltb_ge, Z.gtb_ltb, Z.ltb_ge. lia.
Qed.

(** C4. A window of the catalogue is drawn exactly when it is not the
    case that it ends before the display range starts or starts after the
    display range ends.  In particular a window that starts on the very
    date at which the display range ends is drawn. *)
Theorem window_drawn_iff_overlap items (name : string) (dates : crisis)
    (start_date end_date : Z) :
  (name, dates) ∈ items →
  (crisis_vrect name dates ∈ overlapping_windows items start_date end_date ↔
   ¬ (crisis_end dates < start_date ∨ crisis_start dates > end_date)) ∧
  (start_date ≤ end_date →
   end_date = crisis_start dates →
   crisis_start dates ≤ crisis_end dates →
   crisis_vrect name dates ∈ overlapping_windows items start_date end_date).
Proof.
  intros Hin.
  assert (Hiff : crisis_vrect name dates ∈ overlapping_windows items start_date end_date ↔
                 ¬ (crisis_end dates < start_date ∨ crisis_start dates > end_date)).
  { rewrite overlapping_windows_filter, list_elem_of_fmap. split.
    - intros ([name' dates'] & Heq & Hin').
      apply list_elem_of_In, filter_In in Hin' as [_ Hov].
      apply overlaps_iff in Hov. unfold item_vrect in Heq. simpl in *.
      injection Heq as Hx0 Hx1 _. rewrite Hx0, Hx1. exact Hov.
    - intros Hov. exists (name, dates). split; [done|].
      apply list_elem_of_In, filter_In. split; [by apply list_elem_of_In|].
      by apply overlaps_iff. }
  split; [exact Hiff|].
  intros Hrange Hend Hwin. apply Hiff. lia.
Qed.

Lemma window_drawn_iff_overlap_witness :
  (crisis_vrect "코로나19 팬데믹 쇼크"
     {| crisis_start := datetime.make 2020 2 19;
        crisis_end := datetime.make 2020 4 1;
        description := "코로나19 팬데믹으로 인한 급락" |}
     ∈ overlapping_windows CRISIS_PERIODS
         (datetime.make 2020 1 1) (datetime.make 2020 2 19) ↔
   ¬ (datetime.make 2020 4 1 < datetime.make 2020 1 1 ∨
      datetime.make 2020 2 19 > datetime.make 2020 2 19)) ∧
  crisis_vrect "코로나19 팬데믹 쇼크"
    {| crisis_start := datetime.make 2020 2 19;
       crisis_end := datetime.make 2020 4 1;
       description := "코로나19 팬데믹으로 인한 급락" |}
    ∈ overlapping_windows CRISIS_PERIODS
        (datetime.make 2020 1 1) (datetime.make 2020 2 19).
Proof.
  destruct (window_drawn_iff_overlap CRISIS_PERIODS "코로나19 팬데믹 쇼크"
              {| crisis_start := datetime.make 2020 2 19;
                 crisis_end := datetime.make 2020 4 1;
                 description := "코로나19 팬데믹으로 인한 급락" |}
              (datetime.make 2020 1 1) (datetime.make 2020 2 19)
              (list_elem_of_here _ _)) as [Hiff Htouch].
  split; [exact Hiff|].
  apply Htouch; [discriminate | reflexivity | discriminate].
Defined.

(** The third end-to-end scenario: the display range 2020-01-01 ..
    2020-02-19 touches the first window of the catalogue, and only it is
    drawn. *)
Example touching_window_is_drawn :
  annotation_text <$>
    overlapping_windows CRISIS_PERIODS (datetime.make 2020 1 1) (datetime.make 2020 2 19)
  = ["코로나19 팬데믹 쇼크"].
Proof. reflexivity. Qed.

(** C8. The overlay is a total function of the catalogue and the two
    dates: it returns the bands of the overlapping windows, in the order
    of the catalogue (a subsequence of the bands of all windows), and
    nothing for the empty catalogue; drawing them on a figure appends
    them to its shapes and leaves the rest of the figure alone. *)
Theorem overlapping_windows_in_catalogue_order items fig (start_date end_date : Z) :
  overlapping_windows items start_date end_date =
    item_vrect <$> List.filter (item_overlaps start_date end_date) items ∧
  overlapping_windows items start_date end_date `sublist_of` (item_vrect <$> items) ∧
  overlapping_windows [] start_date end_date = [] ∧
  shapes (add_crisis_regions_in items fig start_date end_date) =
    shapes fig ++ overlapping_windows items start_date end_date ∧
  traces (add_crisis_regions_in items fig start_date end_date) = traces fig.
Proof.
  split; [apply overlapping_windows_filter|].
  split.
  { rewrite overlapping_windows_filter. apply fmap_sublist.
    induction items as [|item rest IH]; [done|]. simpl.
    destruct (item_overlaps start_date end_date item).
    - by apply sublist_skip.
    - by apply sublist_cons. }
  split; [done|].
  rewrite overlapping_windows_filter.
  destruct (add_crisis_regions_in_shapes items fig start_date end_date) as [Htr Hsh].
  done.
Qed.

End Overlay.

(* ===================================================================== *)
(** * Period codes *)
(* ===================================================================== *)

Section Periods.

Lemma datetime_sub_ok (d delta : Z) :
  0 ≤ d - delta ≤ datetime.max → datetime.sub d delta = Ok (d - delta).
Proof.
  intros [Hlo Hhi]. unfold datetime.sub.
  apply Z.leb_le in Hlo, Hhi. by rewrite Hlo, Hhi.
Qed.

Lemma datetime_sub_days (now days : Z) :
  datetime.timedelta 3650 ≤ now ≤ datetime.max →
  0 ≤ days ≤ 3650 →
  datetime.sub now (datetime.timedelta days) = Ok (now - datetime.timedelta days).
Proof.
  intros Hnow Hdays. apply datetime_sub_ok.
  unfold datetime.timedelta, datetime.us_per_day in *. lia.
Qed.

(** The codes that the two selectors offer are all recognised, so the
    fallback branch is not reached from the page itself. *)
Lemma selectable_codes_recognised :
  Forall (λ option, option.2 ∈ ["1y"; "2y"; "3y"; "5y"]) period_options ∧
  Forall (λ option, option.2 ∈ ["1y"; "3y"; "5y"; "10y"]) aw_period_options.
Proof.
  split; repeat constructor; simpl;
    repeat (first [apply list_elem_of_here | apply list_elem_of_further]).
Qed.

(** The claim of C5 fails on the code: the company page resolves "10y"
    and the unknown code "7y" to three years before now, and the
    all-weather page does the same with "2y"; nothing is raised. *)
Lemma lookback_counterexample :
  plot_start_date "10y" (datetime.make 2024 6 1) =
    Ok (datetime.make 2024 6 1 - datetime.timedelta 1095) ∧
  plot_start_date "7y" (datetime.make 2024 6 1) =
    Ok (datetime.make 2024 6 1 - datetime.timedelta 1095) ∧
  plot_start_date_aw "2y" (datetime.make 2024 6 1) =
    Ok (datetime.make 2024 6 1 - datetime.timedelta 1095).
Proof. repeat split; reflexivity. Qed.

(** C5, amended.  With [now] a clock value (at least ten years after
    [datetime.min]), the company page maps 1y, 2y, 3y and 5y to 365, 730,
    1095 and 1825 days before [now], the all-weather page maps 1y, 3y, 5y
    and 10y to 365, 1095, 1825 and 3650 days before [now], and each page
    maps every other code to 1095 days before [now]; the display range
    ends at [now] and nothing is raised. *)
Theorem lookback_offsets (code : string) (now : Z) :
  datetime.timedelta 3650 ≤ now ≤ datetime.max →
  (plot_start_date "1y" now = Ok (now - datetime.timedelta 365) ∧
   plot_start_date "2y" now = Ok (now - datetime.timedelta 730) ∧
   plot_start_date "3y" now = Ok (now - datetime.timedelta 1095) ∧
   plot_start_date "5y" now = Ok (now - datetime.timedelta 1825) ∧
   (code ∉ ["1y"; "2y"; "3y"; "5y"] →
    plot_start_date code now = Ok (now - datetime.timedelta 1095))) ∧
  (plot_start_date_aw "1y" now = Ok (now - datetime.timedelta 365) ∧
   plot_start_date_aw "3y" now = Ok (now - datetime.timedelta 1095) ∧
   plot_start_date_aw "5y" now = Ok (now - datetime.timedelta 1825) ∧
   plot_start_date_aw "10y" now = Ok (now - datetime.timedelta 3650) ∧
   (code ∉ ["1y"; "3y"; "5y"; "10y"] →
    plot_start_date_aw code now = Ok (now - datetime.timedelta 1095))) ∧
  (∃ start, display_range plot_start_date code now = Ok (start, now)) ∧
  (∃ start, display_range plot_start_date_aw code now = Ok (start, now)).
Proof.
  intros Hnow.
  assert (Hsub : ∀ days, 0 ≤ days ≤ 3650 →
            datetime.sub now (datetime.timedelta days) =
              Ok (now - datetime.timedelta days))
    by (intros days Hdays; by apply datetime_sub_days).
  split; [|split; [|split]].
  - repeat split; try (apply (Hsub _); lia).
    intros Hnot. repeat (apply not_elem_of_cons in Hnot as [?%String.eqb_neq Hnot]).
    unfold plot_start_date. repeat case_match; try congruence; apply (Hsub _); lia.
  - repeat split; try (apply (Hsub _); lia).
    intros Hnot. repeat (apply not_elem_of_cons in Hnot as [?%String.eqb_neq Hnot]).
    unfold plot_start_date_aw. repeat case_match; try congruence; apply (Hsub _); lia.
  - unfold display_range, plot_start_date.
    repeat case_match; rewrite (Hsub _) by lia; by eexists.
  - unfold display_range, plot_start_date_aw.
    repeat case_match; rewrite (Hsub _) by lia; by eexists.
Qed.

Lemma lookback_offsets_witness :
  (plot_start_date "1y" (datetime.make 2024 6 1) =
     Ok (datetime.make 2024 6 1 - datetime.timedelta 365) ∧
   plot_start_date "2y" (datetime.make 2024 6 1) =
     Ok (datetime.make 2024 6 1 - datetime.timedelta 730) ∧
   plot_start_date "3y" (datetime.make 2024 6 1) =
     Ok (datetime.make 2024 6 1 - datetime.timedelta 1095) ∧
   plot_start_date "5y" (datetime.make 2024 6 1) =
     Ok (datetime.make 2024 6 1 - datetime.timedelta 1825) ∧
   plot_start_date "7y" (datetime.make 2024 6 1) =
     Ok (datetime.make 2024 6 1 - datetime.timedelta 1095)) ∧
  (plot_start_date_aw "1y" (datetime.make 2024 6 1) =
     Ok (datetime.make 2024 6 1 - datetime.timedelta 365) ∧
   plot_start_date_aw "3y" (datetime.make 2024 6 1) =
     Ok (datetime.make 2024 6 1 - datetime.timedelta 1095) ∧
   plot_start_date_aw "5y" (datetime.make 2024 6 1) =
     Ok (datetime.make 2024 6 1 - datetime.timedelta 1825) ∧
   plot_start_date_aw "10y" (datetime.make 2024 6 1) =
     Ok (datetime.make 2024 6 1 - datetime.timedelta 3650) ∧
   plot_start_date_aw "7y" (datetime.make 2024 6 1) =
     Ok (datetime.make 2024 6 1 - datetime.timedelta 1095)) ∧
  (∃ start, display_range plot_start_date "7y" (datetime.make 2024 6 1) =
              Ok (start, datetime.make 2024 6 1)) ∧
  (∃ start, display_range plot_start_date_aw "7y" (datetime.make 2024 6 1) =
              Ok (start, datetime.make 2024 6 1)).
Proof.
  assert (Hclock : datetime.timedelta 3650 ≤ datetime.make 2024 6 1 ≤ datetime.max)
    by (vm_compute; split; discriminate).
  destruct (lookback_offsets "7y" (datetime.make 2024 6 1) Hclock)
    as ((H1 & H2 & H3 & H5 & Hother) & (A1 & A3 & A5 & A10 & Aother) & Hr & Hraw).
  assert (Hc : "7y" ∉ ["1y"; "2y"; "3y"; "5y"]).
  { intros Hin. repeat (apply elem_of_cons in Hin as [Heq | Hin]; [discriminate|]).
    by apply elem_of_nil in Hin. }
  assert (Ha : "7y" ∉ ["1y"; "3y"; "5y"; "10y"]).
  { intros Hin. repeat (apply elem_of_cons in Hin as [Heq | Hin]; [discriminate|]).
    by apply elem_of_nil in Hin. }
  exact (conj (conj H1 (conj H2 (conj H3 (conj H5 (Hother Hc)))))
          (conj (conj A1 (conj A3 (conj A5 (conj A10 (Aother Ha)))))
             (conj Hr Hraw))).
Defined.

End Periods.

(* ===================================================================== *)
(** * Dicts in insertion order *)
(* ===================================================================== *)

Section Dicts.

Context {V : Type}.
Implicit Types (d : list (string * V)) (k : string) (v : V).

Lemma dict_get_None d k : dict_get d k = None ↔ k ∉ d.*1.
Proof.
  induction d as [|[k' v'] d IH]; simpl.
  - split; [intros _; apply not_elem_of_nil | done].
  - rewrite not_elem_of_cons. destruct (String.eqb_spec k' k) as [->|Hne].
    + split; [discriminate | intros [? _]; done].
    + rewrite IH. split; [intros ?; split; [congruence | done] | intros [_ ?]; done].
Qed.

Lemma dict_get_Some_elem d k v : dict_get d k = Some v → (k, v) ∈ d.
Proof.
  induction d as [|[k' v'] d IH]; simpl; [discriminate|].
  destruct (String.eqb_spec k' k) as [->|Hne].
  - intros [= ->]. apply list_elem_of_here.
  - intros Hget. apply list_elem_of_further. by apply IH.
Qed.

(** Assigning to a new key appends the item. *)
Lemma dict_set_fresh d k v : k ∉ d.*1 → dict_set d k v = d ++ [(k, v)].
Proof.
  induction d as [|[k' v'] d IH]; simpl; [done|].
  rewrite not_elem_of_cons. intros [Hne Hnotin].
  destruct (String.eqb_spec k' k) as [->|_]; [done|].
  by rewrite IH.
Qed.

Lemma dict_get_set_eq d k v : dict_get (dict_set d k v) k = Some v.
Proof.
  induction d as [|[k' v'] d IH]; simpl.
  - by rewrite String.eqb_refl.
  - destruct (String.eqb_spec k' k) as [->|Hne]; simpl.
    + by rewrite String.eqb_refl.
    + apply String.eqb_neq in Hne. by rewrite Hne.
Qed.

Lemma dict_get_set_ne d k k' v :
  k ≠ k' → dict_get (dict_set d k v) k' = dict_get d k'.
Proof.
  intros Hne. induction d as [|[k0 v0] d IH]; simpl.
  - apply String.eqb_neq in Hne. by rewrite Hne.
  - destruct (String.eqb_spec k0 k) as [->|Hne0]; simpl.
    + apply String.eqb_neq in Hne. by rewrite Hne.
    + by rewrite IH.
Qed.

Lemma dict_get_app_fresh d k v k' :
  dict_get (d ++ [(k, v)]) k' =
    match dict_get d k' with
    | Some v' => Some v'
    | None => if String.eqb k k' then Some v else None
    end.
Proof.
  induction d as [|[k0 v0] d IH]; simpl; [done|].
  by destruct (String.eqb k0 k').
Qed.

End Dicts.

(* ===================================================================== *)
(** * The loading loop of the company page *)
(* ===================================================================== *)

(** The figure after [add_crisis_regions], in full. *)
Lemma add_crisis_regions_figure (fig : Figure) (start_date end_date : Z) :
  add_crisis_regions fig start_date end_date =
    {| traces := traces fig;
       shapes := shapes fig ++ overlapping_windows CRISIS_PERIODS start_date end_date |}.
Proof.
  unfold add_crisis_regions. rewrite overlapping_windows_filter.
  destruct (add_crisis_regions_in_shapes CRISIS_PERIODS fig start_date end_date)
    as [Htr Hsh].
  destruct (add_crisis_regions_in CRISIS_PERIODS fig start_date end_date).
  simpl in *. by subst.
Qed.

Section CompanyLoading.

Variables (fetch : string → option DataFrame)
          (info_of : string → option (gmap string pyval)).

Lemma load_company_stores (company : string) (st : company_state)
    (ticker : string) (data : DataFrame) :
  dict_get TOP_10_COMPANIES company = Some ticker →
  fetch ticker = Some data →
  empty data = false →
  load_company fetch info_of company st =
    Ok {| stock_data := dict_set (stock_data st) company data;
          company_infos :=
            dict_set (company_infos st) company (get_company_info (info_of ticker));
          company_warnings := company_warnings st |}.
Proof.
  intros Hticker Hfetch Hne. unfold load_company.
  rewrite Hticker. simpl. by rewrite Hfetch, Hne.
Qed.

Lemma load_company_skips (company : string) (st : company_state) (ticker : string) :
  dict_get TOP_10_COMPANIES company = Some ticker →
  has_data fetch ticker = false →
  load_company fetch info_of company st =
    Ok {| stock_data := stock_data st;
          company_infos := company_infos st;
          company_warnings := company_warnings st ++ [company_warning company] |}.
Proof.
  intros Hticker Hdata. unfold load_company, has_data in *.
  rewrite Hticker. simpl. destruct (fetch ticker) as [data|]; [|done].
  by destruct (empty data).
Qed.

Lemma load_companies_from (selected : list string) : ∀ st : company_state,
  NoDup selected →
  Forall (λ c, is_Some (dict_get TOP_10_COMPANIES c)) selected →
  Forall (λ c, c ∉ (stock_data st).*1) selected →
  (company_infos st).*1 = (stock_data st).*1 →
  Forall (fetched_item fetch) (stock_data st) →
  Forall (info_item info_of) (company_infos st) →
  ∃ st',
    load_companies fetch info_of selected st = Ok st' ∧
    (stock_data st').*1 =
      (stock_data st).*1 ++ filter (λ c, company_has_data fetch c = true) selected ∧
    (company_infos st').*1 = (stock_data st').*1 ∧
    company_warnings st' =
      company_warnings st ++
      (company_warning <$> filter (λ c, company_has_data fetch c = false) selected) ∧
    Forall (fetched_item fetch) (stock_data st') ∧
    Forall (info_item info_of) (company_infos st').
Proof.
  induction selected as [|company rest IH];
    intros st Hnodup Hknown Hfresh Hkeys Hitems Hinfos.
  - exists st. simpl. by rewrite !app_nil_r.
  - apply NoDup_cons in Hnodup as [Hnotin Hnodup].
    apply Forall_cons in Hknown as [[ticker Hticker] Hknown].
    apply Forall_cons in Hfresh as [Hfresh0 Hfresh].
    cbn [load_companies].
    assert (Hcd : company_has_data fetch company = has_data fetch ticker)
      by (unfold company_has_data; by rewrite Hticker).
    destruct (has_data fetch ticker) eqn:Hdata.
    + unfold has_data in Hdata.
      destruct (fetch ticker) as [data|] eqn:Hfetch; [|done].
      apply negb_true_iff in Hdata.
      rewrite (load_company_stores company st ticker data Hticker Hfetch Hdata).
      cbn [mbind result_bind].
      rewrite !dict_set_fresh by (by rewrite ?Hkeys).
      edestruct (IH {| stock_data := stock_data st ++ [(company, data)];
                       company_infos := company_infos st ++
                         [(company, get_company_info (info_of ticker))];
                       company_warnings := company_warnings st |})
        as (st' & Hrun & Hk & Hi & Hw & Hf & Hg); simpl.
      * done.
      * done.
      * rewrite fmap_app. simpl.
        apply Forall_forall. intros c Hc.
        rewrite Forall_forall in Hfresh.
        rewrite elem_of_app, list_elem_of_singleton.
        intros [Hin | ->]; [by apply (Hfresh c Hc) | done].
      * by rewrite !fmap_app, Hkeys.
      * apply Forall_app. split; [done|]. constructor; [|constructor].
        exists ticker. done.
      * apply Forall_app. split; [done|]. constructor; [|constructor].
        exists ticker. done.
      * exists st'. split; [done|]. simpl in Hk, Hw.
        rewrite filter_cons_True by done.
        rewrite filter_cons_False by (rewrite Hcd; done).
        rewrite fmap_app in Hk. simpl in Hk. rewrite <- app_assoc in Hk.
        done.
    + rewrite (load_company_skips company st ticker Hticker Hdata).
      cbn [mbind result_bind].
      edestruct (IH {| stock_data := stock_data st;
                       company_infos := company_infos st;
                       company_warnings := company_warnings st ++ [company_warning company] |})
        as (st' & Hrun & Hk & Hi & Hw & Hf & Hg); simpl; try done.
      exists st'. split; [done|]. simpl in Hk, Hw.
      rewrite filter_cons_False by (rewrite Hcd; done).
      rewrite filter_cons_True by done.
      rewrite fmap_cons. rewrite <- app_assoc in Hw. done.
Qed.

Lemma load_companies_run (selected : list string) :
  NoDup selected →
  Forall (λ c, is_Some (dict_get TOP_10_COMPANIES c)) selected →
  ∃ st,
    load_companies fetch info_of selected no_companies = Ok st ∧
    (stock_data st).*1 = filter (λ c, company_has_data fetch c = true) selected ∧
    (company_infos st).*1 = (stock_data st).*1 ∧
    company_warnings st =
      company_warning <$> filter (λ c, company_has_data fetch c = false) selected ∧
    Forall (fetched_item fetch) (stock_data st) ∧
    Forall (info_item info_of) (company_infos st).
Proof.
  intros Hnodup Hknown.
  destruct (load_companies_from selected no_companies Hnodup Hknown)
    as (st & Hrun & Hk & Hi & Hw & Hf & Hg); simpl; try done.
  - apply Forall_forall. intros c _. apply not_elem_of_nil.
  - by exists st.
Qed.

(** X1.  The loading loop of the company page, run on distinct names of
    the catalogue, never raises.  It stores, in the order of the
    selection, exactly the companies whose download has rows and columns;
    the stored frames are the downloaded ones; the information dict has
    the same keys in the same order and holds what [get_company_info]
    returned for each ticker; and every other company gets one warning,
    in the order of the selection. *)
Theorem load_companies_invariant (selected : list string) :
  NoDup selected →
  Forall (λ c, is_Some (dict_get TOP_10_COMPANIES c)) selected →
  ∃ st,
    load_companies fetch info_of selected no_companies = Ok st ∧
    (stock_data st).*1 = filter (λ c, company_has_data fetch c = true) selected ∧
    (company_infos st).*1 = (stock_data st).*1 ∧
    company_warnings st =
      company_warning <$> filter (λ c, company_has_data fetch c = false) selected ∧
    Forall (fetched_item fetch) (stock_data st) ∧
    Forall (info_item info_of) (company_infos st).
Proof. apply load_companies_run. Qed.

End CompanyLoading.


Lemma sample_selection_known :
  Forall (λ c, is_Some (dict_get TOP_10_COMPANIES c)) ["Microsoft"; "Apple"].
Proof. repeat constructor; eexists; reflexivity. Qed.

Lemma sample_selection_distinct : NoDup ["Microsoft"; "Apple"].
Proof. apply (bool_decide_unpack _). reflexivity. Qed.

Lemma load_companies_invariant_witness :
  ∃ st,
    load_companies sample_fetch sample_info ["Microsoft"; "Apple"] no_companies = Ok st ∧
    (stock_data st).*1 =
      filter (λ c, company_has_data sample_fetch c = true) ["Microsoft"; "Apple"] ∧
    (company_infos st).*1 = (stock_data st).*1 ∧
    company_warnings st =
      company_warning <$>
        filter (λ c, company_has_data sample_fetch c = false) ["Microsoft"; "Apple"] ∧
    Forall (fetched_item sample_fetch) (stock_data st) ∧
    Forall (info_item sample_info) (company_infos st).
Proof.
  exact (load_companies_invariant sample_fetch sample_info ["Microsoft"; "Apple"]
           sample_selection_distinct sample_selection_known).
Defined.

(* ===================================================================== *)
(** * Tables after loading *)
(* ===================================================================== *)

Section Tables.

Variable fetch : string → option DataFrame.

(** Every download that passes the guard of the loading loops, that is
    every frame with rows and columns, is well formed and has a Close
    column.  Nothing is asked of the other downloads. *)
Hypothesis fetch_loaded_priced :
  ∀ ticker data, fetch ticker = Some data → empty data = false → priced data.

Lemma nonempty_has_rows (data : DataFrame) :
  empty data = false → (0 <? len data)%nat = true.
Proof.
  unfold empty, len. intros [Hrows _]%orb_false_iff.
  apply bool_decide_eq_false in Hrows. apply Nat.ltb_lt.
  destruct (index data); [done | simpl; lia].
Qed.

Lemma priced_close (data : DataFrame) :
  priced data → empty data = false →
  ∃ c0 cs, columns data !! "Close" = Some (c0 :: cs).
Proof.
  intros [Hwf [close Hclose]] Hne.
  destruct (guard_gives_rows data close Hwf Hne Hclose) as (c0 & cs & ->).
  by exists c0, cs.
Qed.

(** The company table has one row for every frame with rows and a Close
    column. *)
Lemma performance_data_rows (frames : list (string * DataFrame)) :
  Forall (λ item, priced item.2 ∧ empty item.2 = false) frames →
  ∃ rows, performance_data frames = Ok rows ∧ Forall2 row_of_frame frames rows.
Proof.
  induction 1 as [|[company data] frames [Hp Hne] _ (rows & Hrows & Hall)].
  - exists []. split; [done | constructor].
  - simpl in Hp, Hne. destruct (priced_close data Hp Hne) as (c0 & cs & Hclose).
    destruct (iloc_last_cons c0 cs) as (cl & Hlast & _).
    eexists (_ :: rows). split.
    + cbn [performance_data]. rewrite (nonempty_has_rows data Hne).
      rewrite (summarize_ok company data c0 cl cs Hclose Hlast).
      cbn [mbind result_bind]. rewrite Hrows. reflexivity.
    + constructor; [|done]. split; [done|]. by exists c0, cs, cl.
Qed.

Lemma fetched_items_priced (frames : list (string * DataFrame)) :
  Forall (fetched_item fetch) frames →
  Forall (λ item, priced item.2 ∧ empty item.2 = false) frames.
Proof.
  intros Hall. eapply Forall_impl; [exact Hall|].
  intros item (ticker & _ & Hfetch & Hne).
  split; [by eapply fetch_loaded_priced | done].
Qed.

Lemma company_table_run
    (info_of : string → option (gmap string pyval)) (selected : list string) :
  NoDup selected →
  Forall (λ c, is_Some (dict_get TOP_10_COMPANIES c)) selected →
  ∃ st rows,
    load_companies fetch info_of selected no_companies = Ok st ∧
    performance_data (stock_data st) = Ok rows ∧
    perf_name <$> rows = filter (λ c, company_has_data fetch c = true) selected ∧
    Forall2 row_of_frame (stock_data st) rows.
Proof.
  intros Hnodup Hknown.
  destruct (load_companies_run fetch info_of selected Hnodup Hknown)
    as (st & Hrun & Hk & _ & _ & Hf & _).
  destruct (performance_data_rows (stock_data st) (fetched_items_priced _ Hf))
    as (rows & Hrows & Hall).
  exists st, rows. repeat (split; [done|]). split; [|done].
  rewrite <- Hk. clear -Hall.
  induction Hall as [|item row frames rows [Hname _] _ IH]; [done|].
  rewrite !fmap_cons. by rewrite Hname, IH.
Qed.

(** ** The all-weather page *)

Lemma load_aw_asset_no_data (asset_name ticker : string) (st : aw_state) :
  has_data fetch ticker = false →
  load_aw_asset asset_name ticker (fetch ticker) st =
    Ok {| aw_data := aw_data st;
          warnings := warnings st ++ [aw_warning asset_name ticker] |}.
Proof.
  unfold has_data, load_aw_asset. destruct (fetch ticker) as [data|]; [|done].
  by destruct (empty data).
Qed.

Lemma load_aw_assets_from (assets : list (string * string)) : ∀ st : aw_state,
  NoDup assets.*1 →
  Forall (λ a, a.1 ∉ (aw_data st).*1) assets →
  ∃ new,
    load_aw_assets fetch assets st =
      Ok {| aw_data := aw_data st ++ new;
            warnings := warnings st ++
              ((λ a, aw_warning a.1 a.2) <$>
                 filter (λ a, has_data fetch a.2 = false) assets) |} ∧
    Forall2 (stored_asset fetch) (filter (λ a, has_data fetch a.2 = true) assets) new.
Proof.
  induction assets as [|[asset_name ticker] rest IH]; intros st Hnodup Hfresh.
  - exists []. simpl. rewrite !app_nil_r. split; [by destruct st | constructor].
  - rewrite fmap_cons in Hnodup. apply NoDup_cons in Hnodup as [Hnotin Hnodup].
    apply Forall_cons in Hfresh as [Hfresh0 Hfresh]. simpl in Hfresh0, Hnotin.
    cbn [load_aw_assets].
    destruct (has_data fetch ticker) eqn:Hdata.
    + pose proof Hdata as Hdata'. unfold has_data in Hdata'.
      destruct (fetch ticker) as [data|] eqn:Hfetch; [|done].
      apply negb_true_iff in Hdata'.
      destruct (priced_close data (fetch_loaded_priced _ _ Hfetch Hdata') Hdata')
        as (c0 & cs & Hclose).
      destruct (load_aw_asset_stores data c0 cs asset_name ticker st Hclose Hdata')
        as (data' & Hnorm & ->).
      rewrite (normalize_ok data c0 cs Hclose) in Hnorm. injection Hnorm as <-.
      cbn [mbind result_bind]. rewrite dict_set_fresh by done.
      edestruct (IH {| aw_data := aw_data st ++ [(asset_name, setitem data "Normalized Close"
                                                   (normalized_close c0 <$> c0 :: cs))];
                       warnings := warnings st |}) as (new & Hrun & Hall).
      * done.
      * cbn [aw_data]. rewrite fmap_app, list_fmap_singleton. cbn [fst].
        apply Forall_forall. intros a Ha.
        rewrite Forall_forall in Hfresh.
        rewrite elem_of_app, list_elem_of_singleton.
        intros [Hin | Heq]; [by apply (Hfresh a Ha)|].
        apply Hnotin. cbn [fst] in Heq. rewrite <- Heq.
        apply list_elem_of_fmap. by exists a.
      * cbn [aw_data warnings] in Hrun.
        change (normalized_close c0 c0 :: list_fmap float float (normalized_close c0) cs)
          with (normalized_close c0 <$> c0 :: cs).
        eexists (_ :: new). rewrite Hrun. split.
        -- rewrite <- app_assoc.
           by rewrite filter_cons_False by (cbn [snd]; rewrite Hdata; done).
        -- rewrite filter_cons_True by done. constructor; [|done].
           split; [done|]. exists data. cbn [snd]. repeat (split; [done|]).
           by exists c0, cs.
    + rewrite (load_aw_asset_no_data asset_name ticker st Hdata).
      cbn [mbind result_bind].
      edestruct (IH {| aw_data := aw_data st;
                       warnings := warnings st ++ [aw_warning asset_name ticker] |})
        as (new & Hrun & Hall); [done | done |].
      cbn [aw_data warnings] in Hrun.
      exists new. rewrite Hrun. split.
      * rewrite filter_cons_True by done. rewrite fmap_cons, <- app_assoc. done.
      * by rewrite filter_cons_False by (cbn [snd]; rewrite Hdata; done).
Qed.

Lemma load_aw_assets_run (assets : list (string * string)) :
  NoDup assets.*1 →
  ∃ st,
    load_aw_assets fetch assets no_assets = Ok st ∧
    Forall2 (stored_asset fetch)
      (filter (λ a, has_data fetch a.2 = true) assets) (aw_data st) ∧
    warnings st =
      (λ a, aw_warning a.1 a.2) <$> filter (λ a, has_data fetch a.2 = false) assets.
Proof.
  intros Hnodup.
  destruct (load_aw_assets_from assets no_assets Hnodup) as (new & Hrun & Hall).
  - apply Forall_forall. intros a _. apply not_elem_of_nil.
  - eexists. split; [exact Hrun|]. simpl. done.
Qed.

(** X4.  The loading loop of the all-weather page, run on a catalogue of
    distinct names, never raises when every download that has rows and
    columns is a well-formed frame with a Close column; the other
    downloads may be anything: nothing, a frame without rows, a frame
    without columns.  The loop stores, in catalogue order, exactly the
    assets whose download has rows and columns, each as the downloaded
    frame with its normalised column, and shows one warning for every
    other asset. *)
Theorem load_aw_assets_invariant (assets : list (string * string)) :
  NoDup assets.*1 →
  ∃ st,
    load_aw_assets fetch assets no_assets = Ok st ∧
    Forall2 (stored_asset fetch)
      (filter (λ a, has_data fetch a.2 = true) assets) (aw_data st) ∧
    warnings st =
      (λ a, aw_warning a.1 a.2) <$> filter (λ a, has_data fetch a.2 = false) assets.
Proof. apply load_aw_assets_run. Qed.



End Tables.

Section LoadedTables.

Variable fetch : string → option DataFrame.
Hypothesis fetch_priced : ∀ ticker data, fetch ticker = Some data → priced data.

(** X3.  After the loading loop, the performance table cannot raise: it
    has exactly one row per loaded company, in the order of the
    selection, whose start and end prices are the first and last close of
    that company's frame. *)
Theorem company_table_after_loading
    (info_of : string → option (gmap string pyval)) (selected : list string) :
  NoDup selected →
  Forall (λ c, is_Some (dict_get TOP_10_COMPANIES c)) selected →
  ∃ st rows,
    load_companies fetch info_of selected no_companies = Ok st ∧
    performance_data (stock_data st) = Ok rows ∧
    perf_name <$> rows = filter (λ c, company_has_data fetch c = true) selected ∧
    Forall2 row_of_frame (stock_data st) rows.
Proof.
  apply company_table_run. intros ticker data Hfetch _. by eapply fetch_priced.
Qed.


End LoadedTables.

(** Frames built with [bars] from columns as long as the index are
    well formed. *)
Lemma bars_well_formed (dates : list Z) (open high low close volume : list float) :
  length open = length dates → length high = length dates →
  length low = length dates → length close = length dates →
  length volume = length dates →
  well_formed (bars dates open high low close volume).
Proof.
  intros Ho Hh Hl Hc Hv name col Hcol. unfold bars in *. simpl in *.
  repeat (rewrite lookup_insert in Hcol; case_decide; [by injection Hcol as <-|]).
  by rewrite lookup_empty in Hcol.
Qed.

Lemma frame_of_closes_priced (closes : list Z) : priced (frame_of_closes closes).
Proof.
  split.
  - apply bars_well_formed; by rewrite !length_fmap, length_seq.
  - eexists. reflexivity.
Qed.

Lemma sample_fetch_priced (ticker : string) (data : DataFrame) :
  sample_fetch ticker = Some data → priced data.
Proof.
  unfold sample_fetch, sample_history.
  repeat (destruct (String.eqb ticker _);
          [intros [= <-]; apply frame_of_closes_priced|]).
  discriminate.
Qed.

(** With [get_stock_data] between the provider and the loops, a download
    counts as data exactly when [history] returned a frame with rows and
    columns; a raised exception counts as no data. *)
Lemma has_data_get_stock_data (history : string → string + DataFrame) (ticker : string) :
  has_data (λ t, (get_stock_data t (history t)).1) ticker =
    match history ticker with
    | inr data => negb (empty data)
    | inl _ => false
    end.
Proof. unfold has_data, get_stock_data. by destruct (history ticker). Qed.

Lemma all_weather_names_distinct : NoDup ALL_WEATHER_ASSETS.*1.
Proof. apply (bool_decide_unpack _). reflexivity. Qed.

Lemma company_table_after_loading_witness :
  ∃ st rows,
    load_companies sample_fetch sample_info ["Microsoft"; "Apple"] no_companies = Ok st ∧
    performance_data (stock_data st) = Ok rows ∧
    perf_name <$> rows =
      filter (λ c, company_has_data sample_fetch c = true) ["Microsoft"; "Apple"] ∧
    Forall2 row_of_frame (stock_data st) rows.
Proof.
  exact (company_table_after_loading sample_fetch sample_fetch_priced sample_info
           ["Microsoft"; "Apple"] sample_selection_distinct sample_selection_known).
Defined.

(** Downloads that include a frame with neither rows nor columns, and so
    without a Close column, are within the premise of the loading loop. *)
Lemma sample_fetch_blank_priced (ticker : string) (data : DataFrame) :
  sample_fetch_blank ticker = Some data → empty data = false → priced data.
Proof.
  unfold sample_fetch_blank. destruct (String.eqb ticker "SPY").
  - by intros [= <-].
  - intros Hfetch _. by eapply sample_fetch_priced.
Qed.

Lemma load_aw_assets_invariant_witness :
  sample_fetch_blank "SPY" = Some blank_frame ∧
  columns blank_frame !! "Close" = None ∧
  ∃ st,
    load_aw_assets sample_fetch_blank ALL_WEATHER_ASSETS no_assets = Ok st ∧
    Forall2 (stored_asset sample_fetch_blank)
      (filter (λ a, has_data sample_fetch_blank a.2 = true) ALL_WEATHER_ASSETS)
      (aw_data st) ∧
    warnings st =
      (λ a, aw_warning a.1 a.2) <$>
        filter (λ a, has_data sample_fetch_blank a.2 = false) ALL_WEATHER_ASSETS.
Proof.
  split; [reflexivity|]. split; [reflexivity|].
  exact (load_aw_assets_invariant sample_fetch_blank sample_fetch_blank_priced
           ALL_WEATHER_ASSETS all_weather_names_distinct).
Defined.


(** The sample downloads, run through the page: only gold is stored, and
    its row starts at exactly 100. *)
Example sample_all_weather_page :
  ∃ st rows,
    load_aw_assets sample_fetch ALL_WEATHER_ASSETS no_assets = Ok st ∧
    (aw_data st).*1 = ["금"] ∧ length (warnings st) = 4%nat ∧
    aw_performance_data (aw_data st) = Ok rows ∧
    initial_normalized_price <$> rows = [hundred].
Proof. do 2 eexists. repeat split; vm_compute; reflexivity. Qed.

(* ===================================================================== *)
(** * Charts *)
(* ===================================================================== *)

Section Charts.

Implicit Types (p : palette) (frames : list (string * DataFrame)).

Lemma palette_length p : (0 < length (palette_colors p))%nat.
Proof. simpl. lia. Qed.

(** The colour cycle never leaves the palette. *)
Lemma cycle_color_ok p (i : nat) :
  ∃ c, cycle_color p i = Ok c ∧
       palette_colors p !! (i mod length (palette_colors p))%nat = Some c.
Proof.
  unfold cycle_color.
  destruct (lookup_lt_is_Some_2 (palette_colors p)
              (i mod length (palette_colors p))%nat) as [c Hc].
  { apply Nat.mod_upper_bound. pose proof (palette_length p). lia. }
  exists c. by rewrite Hc.
Qed.

Lemma scatter_traces_from_ok p (column : string) frames : ∀ i : nat,
  Forall (λ item, is_Some (columns item.2 !! column)) frames →
  ∃ ts, scatter_traces_from p column i frames = Ok ts ∧
        length ts = length frames ∧
        ∀ (j : nat) item t, frames !! j = Some item → ts !! j = Some t →
          trace_of_frame p column (i + j) item t.
Proof.
  induction frames as [|[name data] frames IH]; intros i Hcols.
  - exists []. split; [done|]. split; [done|].
    intros j item t Hj. by rewrite lookup_nil in Hj.
  - apply Forall_cons in Hcols as [[y Hy] Hcols]. simpl in Hy.
    destruct (cycle_color_ok p i) as (c & Hc & Hlook).
    destruct (IH (S i) Hcols) as (ts & Hts & Hlen & Hall).
    eexists (_ :: ts). split; [|split].
    + cbn [scatter_traces_from]. unfold getitem. rewrite Hy.
      cbn [of_option mbind result_bind]. rewrite Hc.
      cbn [mbind result_bind]. rewrite Hts. reflexivity.
    + simpl. by rewrite Hlen.
    + intros [|j] item t Hitem Ht; simpl in Hitem, Ht.
      * injection Hitem as <-. injection Ht as <-.
        rewrite Nat.add_0_r. by repeat split.
      * replace (i + S j)%nat with (S i + j)%nat by lia. by eapply Hall.
Qed.

Lemma scatter_traces_from_missing p (column : string) frames : ∀ i : nat,
  Exists (λ item, columns item.2 !! column = None) frames →
  scatter_traces_from p column i frames = Raise (KeyError column).
Proof.
  induction frames as [|[name data] frames IH]; intros i Hmiss.
  - by apply Exists_nil in Hmiss.
  - cbn [scatter_traces_from]. unfold getitem.
    destruct (columns data !! column) as [y|] eqn:Hy; [|done].
    apply Exists_cons in Hmiss as [Hhere | Hlater]; [simpl in Hhere; congruence|].
    cbn [of_option mbind result_bind].
    destruct (cycle_color_ok p i) as (c & -> & _).
    cbn [mbind result_bind]. by rewrite (IH (S i) Hlater).
Qed.

(** X6.  A line chart drawn from frames that all have the plotted column
    never raises: it has one trace per frame, in the order of the dict,
    the i-th named after the i-th frame, drawn from its index and column
    in colour [i mod n] of an n-colour palette, so that traces n places
    apart share a colour; its shapes are the crisis bands of the display
    range.  If some frame lacks the column, the chart raises KeyError. *)
Theorem line_chart_traces p (column : string) frames (start_date end_date : Z) :
  (Forall (λ item, is_Some (columns item.2 !! column)) frames →
   ∃ ts,
     line_chart p column frames start_date end_date =
       Ok (ts, {| traces := frames.*1;
                  shapes := overlapping_windows CRISIS_PERIODS start_date end_date |}) ∧
     length ts = length frames ∧
     (∀ (i : nat) item t, frames !! i = Some item → ts !! i = Some t →
        trace_of_frame p column i item t) ∧
     (∀ (i : nat) t t', ts !! i = Some t →
        ts !! (i + length (palette_colors p))%nat = Some t' →
        sc_color t' = sc_color t)) ∧
  (Exists (λ item, columns item.2 !! column = None) frames →
   line_chart p column frames start_date end_date = Raise (KeyError column)).
Proof.
  split.
  - intros Hcols.
    destruct (scatter_traces_from_ok p column frames 0 Hcols) as (ts & Hts & Hlen & Hall).
    assert (Hnames : sc_name <$> ts = frames.*1).
    { apply list_eq. intros i. rewrite !list_lookup_fmap.
      destruct (frames !! i) as [item|] eqn:Hitem.
      - destruct (lookup_lt_is_Some_2 ts i) as [t Ht].
        { rewrite Hlen. by eapply lookup_lt_Some. }
        rewrite Ht. simpl. f_equal. by destruct (Hall i item t Hitem Ht) as [-> _].
      - rewrite (lookup_ge_None_2 ts i); [done|].
        rewrite Hlen. by apply lookup_ge_None. }
    exists ts. split; [|split; [done|split]].
    + unfold line_chart. rewrite Hts. cbn [mbind result_bind mret result_ret].
      by rewrite add_crisis_regions_figure, Hnames.
    + intros i item t Hitem Ht. by apply (Hall i item t Hitem Ht).
    + intros i t t' Ht Ht'.
      destruct (lookup_lt_is_Some_2 frames i) as [item Hitem].
      { rewrite <- Hlen. by eapply lookup_lt_Some. }
      destruct (lookup_lt_is_Some_2 frames (i + length (palette_colors p))%nat)
        as [item' Hitem'].
      { rewrite <- Hlen. by eapply lookup_lt_Some. }
      destruct (Hall _ _ _ Hitem Ht) as (_ & _ & _ & Hc).
      destruct (Hall _ _ _ Hitem' Ht') as (_ & _ & _ & Hc').
      rewrite Nat.add_0_l in Hc, Hc'.
      replace (i + length (palette_colors p))%nat
        with (i + 1 * length (palette_colors p))%nat in Hc' by lia.
      rewrite Nat.Div0.mod_add in Hc'. congruence.
  - intros Hmiss. unfold line_chart.
    by rewrite (scatter_traces_from_missing p column frames 0 Hmiss).
Qed.

End Charts.

Lemma line_chart_traces_witness :
  (∃ ts,
     line_chart {| first_color := "red"; more_colors := ["blue"] |} "Close"
       [("Apple", frame_of_closes [100; 110])]
       (datetime.make 2020 1 1) (datetime.make 2020 2 19) =
       Ok (ts, {| traces := [("Apple", frame_of_closes [100; 110])].*1;
                  shapes := overlapping_windows CRISIS_PERIODS
                              (datetime.make 2020 1 1) (datetime.make 2020 2 19) |}) ∧
     length ts = 1%nat ∧
     sc_color <$> ts = ["red"]) ∧
  line_chart {| first_color := "red"; more_colors := ["blue"] |} "Adj Close"
    [("Apple", frame_of_closes [100; 110])]
    (datetime.make 2020 1 1) (datetime.make 2020 2 19) = Raise (KeyError "Adj Close").
Proof.
  split.
  - destruct (line_chart_traces {| first_color := "red"; more_colors := ["blue"] |}
                "Close" [("Apple", frame_of_closes [100; 110])]
                (datetime.make 2020 1 1) (datetime.make 2020 2 19))
      as [Hok _].
    destruct Hok as (ts & Hrun & Hlen & Hall & _).
    { repeat constructor. eexists. reflexivity. }
    exists ts. split; [exact Hrun|]. split; [exact Hlen|].
    destruct ts as [|t [|? ?]]; try discriminate.
    destruct (Hall 0%nat _ t eq_refl eq_refl) as (_ & _ & _ & Hc).
    injection Hc as Hc. simpl. by rewrite <- Hc.
  - apply (line_chart_traces {| first_color := "red"; more_colors := ["blue"] |}
             "Adj Close" [("Apple", frame_of_closes [100; 110])]).
    apply Exists_cons_hd. reflexivity.
Defined.

(* ===================================================================== *)
(** * Formatting of provider values *)
(* ===================================================================== *)

Section Formatting.

(** An integer is compared with a power of ten as an integer. *)
Lemma py_ge_int_c1e12 (n : Z) : py_ge (PyInt n) c1e12 = Returns (10 ^ 12 <=? n).
Proof.
  unfold py_ge. f_equal.
  change (Z_compare_float n c1e12) with (Some (n * 8192 ?= 8192000000000000)).
  destruct (Z.compare_spec (n * 8192) 8192000000000000);
    symmetry; [apply Z.leb_le | apply Z.leb_gt | apply Z.leb_le]; lia.
Qed.

Lemma py_ge_int_c1e9 (n : Z) : py_ge (PyInt n) c1e9 = Returns (10 ^ 9 <=? n).
Proof.
  unfold py_ge. f_equal.
  change (Z_compare_float n c1e9) with (Some (n * 8388608 ?= 8388608000000000)).
  destruct (Z.compare_spec (n * 8388608) 8388608000000000);
    symmetry; [apply Z.leb_le | apply Z.leb_gt | apply Z.leb_le]; lia.
Qed.

Lemma py_ge_int_c1e6 (n : Z) : py_ge (PyInt n) c1e6 = Returns (10 ^ 6 <=? n).
Proof.
  unfold py_ge. f_equal.
  change (Z_compare_float n c1e6) with (Some (n * 8589934592 ?= 8589934592000000)).
  destruct (Z.compare_spec (n * 8589934592) 8589934592000000);
    symmetry; [apply Z.leb_le | apply Z.leb_gt | apply Z.leb_le]; lia.
Qed.

Lemma py_float_finite (n : Z) : is_inf (of_Z n) = false → py_float n = Returns (of_Z n).
Proof. intros Hfin. unfold py_float. by rewrite Hfin. Qed.

Lemma py_float_overflow (n : Z) : is_inf (of_Z n) = true → py_float n = Raises FloatOverflow.
Proof. intros Hinf. unfold py_float. by rewrite Hinf. Qed.

(** An integer of 1025 bits is beyond the range of binary64. *)
Example huge_int_overflows : py_float (2 ^ 1024) = Raises FloatOverflow.
Proof. reflexivity. Qed.

(** X7.  [format_market_cap] raises TypeError for [None] and for a
    string, and an overflow error for an integer beyond the range of
    binary64.  For every other integer it chooses the unit by comparing
    the integer itself, unrounded, with 10^12, 10^9 and 10^6, so a
    negative capitalisation of any size is shown without a unit and with
    thousands separators; a NaN is shown as "$nan". *)
Theorem format_market_cap_cases :
  format_market_cap PyNone = Raises TypeError ∧
  (∀ s : string, format_market_cap (PyStr s) = Raises TypeError) ∧
  (∀ n : Z, is_inf (of_Z n) = true →
     format_market_cap (PyInt n) = Raises FloatOverflow) ∧
  (∀ n : Z, is_inf (of_Z n) = false →
     format_market_cap (PyInt n) =
       Returns ("$" +:+
         (if 10 ^ 12 <=? n then format_fixed false 2 (div (of_Z n) c1e12) +:+ "T"
          else if 10 ^ 9 <=? n then format_fixed false 2 (div (of_Z n) c1e9) +:+ "B"
          else if 10 ^ 6 <=? n then format_fixed false 2 (div (of_Z n) c1e6) +:+ "M"
          else format_fixed true 0 (of_Z n)))) ∧
  (∀ n : Z, n < 0 → is_inf (of_Z n) = false →
     format_market_cap (PyInt n) = Returns ("$" +:+ format_fixed true 0 (of_Z n))) ∧
  format_market_cap (PyFloat nan) = Returns "$nan".
Proof.
  assert (Hint : ∀ n : Z, is_inf (of_Z n) = false →
     format_market_cap (PyInt n) =
       Returns ("$" +:+
         (if 10 ^ 12 <=? n then format_fixed false 2 (div (of_Z n) c1e12) +:+ "T"
          else if 10 ^ 9 <=? n then format_fixed false 2 (div (of_Z n) c1e9) +:+ "B"
          else if 10 ^ 6 <=? n then format_fixed false 2 (div (of_Z n) c1e6) +:+ "M"
          else format_fixed true 0 (of_Z n)))).
  { intros n Hfin. unfold format_market_cap.
    rewrite py_ge_int_c1e12, py_ge_int_c1e9, py_ge_int_c1e6.
    cbn [mbind outcome_bind]. unfold py_truediv, py_format_fixed.
    rewrite (py_float_finite n Hfin).
    destruct (10 ^ 12 <=? n); [done|]. cbn [mbind outcome_bind].
    destruct (10 ^ 9 <=? n); [done|]. cbn [mbind outcome_bind].
    destruct (10 ^ 6 <=? n); done. }
  split; [done|]. split; [done|]. split; [|split; [exact Hint|split; [|done]]].
  - intros n Hinf. unfold format_market_cap.
    rewrite py_ge_int_c1e12, py_ge_int_c1e9, py_ge_int_c1e6.
    cbn [mbind outcome_bind]. unfold py_truediv, py_format_fixed.
    rewrite (py_float_overflow n Hinf).
    destruct (10 ^ 12 <=? n); [done|]. cbn [mbind outcome_bind].
    destruct (10 ^ 9 <=? n); [done|]. cbn [mbind outcome_bind].
    destruct (10 ^ 6 <=? n); done.
  - intros n Hneg Hfin. rewrite (Hint n Hfin).
    rewrite !(proj2 (Z.leb_gt _ _)) by lia. done.
Qed.

(** X8.  The defaults of [get_company_info] cover a failed lookup and a
    missing key: the metric then shows "$0.00" and a capitalisation of
    "$0".  They do not cover a key that is present with the value [None]:
    rendering the metric for such a price or capitalisation raises
    TypeError. *)
Theorem company_metric_defaults (company : string) (info : gmap string pyval) :
  company_metric company (get_company_info None) =
    Returns {| metric_label := company;
               metric_value := "$0.00";
               metric_delta := "시총: $0";
               caption_sector := PyStr "N/A" |} ∧
  (info !! "currentPrice" = None → info !! "marketCap" = None →
   company_metric company (get_company_info (Some info)) =
     Returns {| metric_label := company;
                metric_value := "$0.00";
                metric_delta := "시총: $0";
                caption_sector := info_get info "sector" (PyStr "N/A") |}) ∧
  (info !! "currentPrice" = Some PyNone →
   company_metric company (get_company_info (Some info)) = Raises TypeError) ∧
  (∀ x : float, info !! "currentPrice" = Some (PyFloat x) →
   info !! "marketCap" = Some PyNone →
   company_metric company (get_company_info (Some info)) = Raises TypeError).
Proof.
  split; [reflexivity|]. split; [|split].
  - intros Hp Hc. unfold company_metric, get_company_info, info_get. simpl.
    rewrite Hp, Hc. reflexivity.
  - intros Hp. unfold company_metric, get_company_info, info_get. simpl.
    by rewrite Hp.
  - intros x Hp Hc. unfold company_metric, get_company_info, info_get. simpl.
    by rewrite Hp, Hc.
Qed.

End Formatting.

(* ===================================================================== *)
(** * More on normalisation and summaries *)
(* ===================================================================== *)

Section FrameErrors.

Implicit Types (data : DataFrame).

(** X9.  The two normalising statements succeed exactly on a frame whose
    Close column exists and is not empty: without the column they raise
    KeyError for "Close", and with an empty column IndexError.  The
    summaries of both pages fail in the same two ways. *)
Theorem normalize_fails_exactly data (name : string) :
  (columns data !! "Close" = None →
   normalize data = Raise (KeyError "Close") ∧
   summarize name data = Raise (KeyError "Close") ∧
   etf_summarize name data = Raise (KeyError "Close")) ∧
  (columns data !! "Close" = Some [] →
   normalize data = Raise IndexError ∧
   summarize name data = Raise IndexError ∧
   etf_summarize name data = Raise IndexError) ∧
  ((∃ data', normalize data = Ok data') ↔
   (∃ c0 cs, columns data !! "Close" = Some (c0 :: cs))) ∧
  ((∃ row, summarize name data = Ok row) ↔
   (∃ c0 cs, columns data !! "Close" = Some (c0 :: cs))).
Proof.
  split; [|split; [|split]].
  - intros Hnone. unfold normalize, summarize, etf_summarize, getitem.
    by rewrite Hnone.
  - intros Hnil. unfold normalize, summarize, etf_summarize, getitem.
    by rewrite Hnil.
  - split.
    + intros [data' Hrun]. unfold normalize, getitem in Hrun.
      destruct (columns data !! "Close") as [[|c0 cs]|]; try discriminate.
      by exists c0, cs.
    + intros (c0 & cs & Hclose). eexists. by apply normalize_ok.
  - split.
    + intros [row Hrun]. unfold summarize, getitem in Hrun.
      destruct (columns data !! "Close") as [[|c0 cs]|]; try discriminate.
      by exists c0, cs.
    + intros (c0 & cs & Hclose).
      destruct (iloc_last_cons c0 cs) as (cl & Hlast & _).
      eexists. by apply summarize_ok.
Qed.

(** X10.  Normalising is idempotent: a frame that has been normalised is
    left as it is by a second normalisation. *)
Theorem normalize_idempotent data (data' : DataFrame) :
  normalize data = Ok data' → normalize data' = Ok data'.
Proof.
  intros Hrun.
  assert (∃ c0 cs, columns data !! "Close" = Some (c0 :: cs)) as (c0 & cs & Hclose).
  { unfold normalize, getitem in Hrun.
    destruct (columns data !! "Close") as [[|c0 cs]|]; try discriminate.
    by exists c0, cs. }
  rewrite (normalize_ok data c0 cs Hclose) in Hrun. injection Hrun as <-.
  rewrite (normalize_ok _ c0 cs) by (by rewrite setitem_other).
  f_equal. unfold setitem. cbn [index columns]. f_equal.
  apply insert_insert_eq.
Qed.

(** X11.  In every row of the company table the start and end prices lie
    between the minimum and the maximum price, when the closes are free
    of NaN. *)
Theorem summarize_prices_within_extrema (company : string) data (row : performance)
    (close : list float) :
  columns data !! "Close" = Some close →
  Forall (λ c, is_nan c = false) close →
  summarize company data = Ok row →
  leb (min_price row) (start_price row) = true ∧
  leb (start_price row) (max_price row) = true ∧
  leb (min_price row) (end_price row) = true ∧
  leb (end_price row) (max_price row) = true ∧
  leb (min_price row) (max_price row) = true.
Proof.
  intros Hclose Hvalid Hrun.
  destruct close as [|c0 cs].
  { unfold summarize, getitem in Hrun. by rewrite Hclose in Hrun. }
  destruct (iloc_last_cons c0 cs) as (cl & Hlast & _).
  rewrite (summarize_ok company data c0 cl cs Hclose Hlast) in Hrun.
  injection Hrun as <-. cbn [start_price end_price max_price min_price].
  destruct (Series_max_spec c0 cs Hvalid) as [_ Hmax].
  destruct (Series_min_spec c0 cs Hvalid) as [_ Hmin].
  rewrite Forall_forall in Hmax, Hmin.
  assert (Hc0 : c0 ∈ c0 :: cs) by apply list_elem_of_here.
  assert (Hcl : cl ∈ c0 :: cs).
  { apply last_Some in Hlast as [l' ->]. apply elem_of_app. right.
    apply list_elem_of_here. }
  repeat split; try (by apply Hmax); try (by apply Hmin).
  eapply leb_trans; [by apply Hmin | by apply Hmax].
Qed.

End FrameErrors.

Lemma normalize_idempotent_witness :
  normalize (setitem (frame_of_closes [50; 110; 90]) "Normalized Close"
               (normalized_close (of_Z 50) <$> [of_Z 50; of_Z 110; of_Z 90])) =
  Ok (setitem (frame_of_closes [50; 110; 90]) "Normalized Close"
        (normalized_close (of_Z 50) <$> [of_Z 50; of_Z 110; of_Z 90])).
Proof.
  apply (normalize_idempotent (frame_of_closes [50; 110; 90])).
  apply (normalize_ok (frame_of_closes [50; 110; 90]) (of_Z 50) [of_Z 110; of_Z 90]).
  reflexivity.
Defined.

Lemma summarize_prices_within_extrema_witness :
  ∃ row, summarize "AAPL" (frame_of_closes [100; 110; 90]) = Ok row ∧
    leb (min_price row) (start_price row) = true ∧
    leb (start_price row) (max_price row) = true ∧
    leb (min_price row) (end_price row) = true ∧
    leb (end_price row) (max_price row) = true ∧
    leb (min_price row) (max_price row) = true.
Proof.
  eexists. split; [reflexivity|].
  apply (summarize_prices_within_extrema "AAPL" (frame_of_closes [100; 110; 90]) _
           [of_Z 100; of_Z 110; of_Z 90]).
  - reflexivity.
  - repeat constructor.
  - reflexivity.
Defined.

(* ===================================================================== *)
(** * Display ranges and bands *)
(* ===================================================================== *)

Section Ranges.

Implicit Types (items : list (string * crisis)).

Lemma overlaps_widen (dates : crisis) (s e s' e' : Z) :
  s' ≤ s → e ≤ e' →
  overlaps dates s e = true → overlaps dates s' e' = true.
Proof. rewrite !overlaps_iff. lia. Qed.

Lemma filter_sublist_impl {A} (P Q : A → bool) (l : list A) :
  (∀ x, P x = true → Q x = true) →
  List.filter P l `sublist_of` List.filter Q l.
Proof.
  intros Himp. induction l as [|x l IH]; [done|]. simpl.
  destruct (P x) eqn:HP.
  - rewrite (Himp x HP). by apply sublist_skip.
  - destruct (Q x); [by apply sublist_cons | done].
Qed.

Lemma bands_widen items (s e s' e' : Z) :
  s' ≤ s → e ≤ e' →
  overlapping_windows items s e `sublist_of` overlapping_windows items s' e'.
Proof.
  intros Hs He. rewrite !overlapping_windows_filter.
  apply fmap_sublist, filter_sublist_impl.
  intros [name dates]. unfold item_overlaps. by apply overlaps_widen.
Qed.

(** X12.  Widening the display range never removes a band, nor changes
    the order of the bands.  With the clock at least ten years after
    [datetime.min], the bands of the period 1y are therefore among those
    of 2y, these among those of 3y, and these among those of 5y and of
    10y. *)
Theorem longer_period_keeps_bands items (now : Z) :
  datetime.timedelta 3650 ≤ now ≤ datetime.max →
  (∀ s e s' e' : Z, s' ≤ s → e ≤ e' →
     overlapping_windows items s e `sublist_of` overlapping_windows items s' e') ∧
  ∃ s1 s2 s3 s5 s10 : Z,
    plot_start_date "1y" now = Ok s1 ∧ plot_start_date "2y" now = Ok s2 ∧
    plot_start_date "3y" now = Ok s3 ∧ plot_start_date "5y" now = Ok s5 ∧
    plot_start_date_aw "1y" now = Ok s1 ∧ plot_start_date_aw "3y" now = Ok s3 ∧
    plot_start_date_aw "5y" now = Ok s5 ∧ plot_start_date_aw "10y" now = Ok s10 ∧
    overlapping_windows items s1 now `sublist_of` overlapping_windows items s2 now ∧
    overlapping_windows items s2 now `sublist_of` overlapping_windows items s3 now ∧
    overlapping_windows items s3 now `sublist_of` overlapping_windows items s5 now ∧
    overlapping_windows items s5 now `sublist_of` overlapping_windows items s10 now.
Proof.
  intros Hnow. split; [intros; by apply bands_widen|].
  exists (now - datetime.timedelta 365), (now - datetime.timedelta 730),
         (now - datetime.timedelta 1095), (now - datetime.timedelta 1825),
         (now - datetime.timedelta 3650).
  unfold plot_start_date, plot_start_date_aw. cbn [String.eqb Ascii.eqb Bool.eqb].
  repeat (split; [apply (datetime_sub_days now _ Hnow); lia|]).
  unfold datetime.timedelta, datetime.us_per_day.
  repeat split; apply bands_widen; lia.
Qed.

(** X13.  For a clock within the range of [datetime], the resolver of
    either page, whatever the code, either returns a start that lies
    between one and five (ten on the all-weather page) years of 365 days
    before the clock, or raises OverflowError because fewer than that
    many days separate the clock from [datetime.min]. *)
Theorem plot_start_date_range (code : string) (now : Z) :
  0 ≤ now ≤ datetime.max →
  ((∃ start, plot_start_date code now = Ok start ∧ 0 ≤ start < now ∧
             datetime.timedelta 365 ≤ now - start ≤ datetime.timedelta 1825) ∨
   (plot_start_date code now = Raise OverflowError ∧ now < datetime.timedelta 1825)) ∧
  ((∃ start, plot_start_date_aw code now = Ok start ∧ 0 ≤ start < now ∧
             datetime.timedelta 365 ≤ now - start ≤ datetime.timedelta 3650) ∨
   (plot_start_date_aw code now = Raise OverflowError ∧ now < datetime.timedelta 3650)).
Proof.
  intros Hnow.
  assert (Hsub : ∀ days lo hi, 365 ≤ lo → lo ≤ days ≤ hi →
    (∃ start, datetime.sub now (datetime.timedelta days) = Ok start ∧ 0 ≤ start < now ∧
        datetime.timedelta lo ≤ now - start ≤ datetime.timedelta hi) ∨
    (datetime.sub now (datetime.timedelta days) = Raise OverflowError ∧
        now < datetime.timedelta hi)).
  { intros days lo hi Hlo Hdays. unfold datetime.sub.
    unfold datetime.timedelta, datetime.us_per_day in *.
    destruct (0 <=? now - days * 86400000000) eqn:H0.
    - apply Z.leb_le in H0.
      rewrite (proj2 (Z.leb_le (now - days * 86400000000) datetime.max)) by lia.
      left. eexists. split; [reflexivity|]. lia.
    - apply Z.leb_gt in H0. right. split; [done | lia]. }
  split.
  - unfold plot_start_date. repeat case_match; apply Hsub; lia.
  - unfold plot_start_date_aw. repeat case_match; apply Hsub; lia.
Qed.

End Ranges.

Lemma longer_period_keeps_bands_witness :
  (∀ s e s' e' : Z, s' ≤ s → e ≤ e' →
     overlapping_windows CRISIS_PERIODS s e `sublist_of`
       overlapping_windows CRISIS_PERIODS s' e') ∧
  ∃ s1 s2 s3 s5 s10 : Z,
    plot_start_date "1y" (datetime.make 2024 6 1) = Ok s1 ∧
    plot_start_date "2y" (datetime.make 2024 6 1) = Ok s2 ∧
    plot_start_date "3y" (datetime.make 2024 6 1) = Ok s3 ∧
    plot_start_date "5y" (datetime.make 2024 6 1) = Ok s5 ∧
    plot_start_date_aw "1y" (datetime.make 2024 6 1) = Ok s1 ∧
    plot_start_date_aw "3y" (datetime.make 2024 6 1) = Ok s3 ∧
    plot_start_date_aw "5y" (datetime.make 2024 6 1) = Ok s5 ∧
    plot_start_date_aw "10y" (datetime.make 2024 6 1) = Ok s10 ∧
    overlapping_windows CRISIS_PERIODS s1 (datetime.make 2024 6 1)
      `sublist_of` overlapping_windows CRISIS_PERIODS s2 (datetime.make 2024 6 1) ∧
    overlapping_windows CRISIS_PERIODS s2 (datetime.make 2024 6 1)
      `sublist_of` overlapping_windows CRISIS_PERIODS s3 (datetime.make 2024 6 1) ∧
    overlapping_windows CRISIS_PERIODS s3 (datetime.make 2024 6 1)
      `sublist_of` overlapping_windows CRISIS_PERIODS s5 (datetime.make 2024 6 1) ∧
    overlapping_windows CRISIS_PERIODS s5 (datetime.make 2024 6 1)
      `sublist_of` overlapping_windows CRISIS_PERIODS s10 (datetime.make 2024 6 1).
Proof.
  apply (longer_period_keeps_bands CRISIS_PERIODS (datetime.make 2024 6 1)).
  vm_compute. split; discriminate.
Defined.

Lemma plot_start_date_range_witness :
  ((∃ start, plot_start_date "3y" (datetime.make 2 1 1) = Ok start ∧
             0 ≤ start < datetime.make 2 1 1 ∧
             datetime.timedelta 365 ≤ datetime.make 2 1 1 - start ≤ datetime.timedelta 1825) ∨
   (plot_start_date "3y" (datetime.make 2 1 1) = Raise OverflowError ∧
    datetime.make 2 1 1 < datetime.timedelta 1825)) ∧
  ((∃ start, plot_start_date_aw "3y" (datetime.make 2 1 1) = Ok start ∧
             0 ≤ start < datetime.make 2 1 1 ∧
             datetime.timedelta 365 ≤ datetime.make 2 1 1 - start ≤ datetime.timedelta 3650) ∨
   (plot_start_date_aw "3y" (datetime.make 2 1 1) = Raise OverflowError ∧
    datetime.make 2 1 1 < datetime.timedelta 3650)).
Proof.
  apply (plot_start_date_range "3y" (datetime.make 2 1 1)).
  vm_compute. split; discriminate.
Defined.

(** One year after [datetime.min] a period of three years cannot be
    resolved. *)
Example plot_start_date_overflow :
  plot_start_date "3y" (datetime.make 2 1 1) = Raise OverflowError.
Proof. reflexivity. Qed.

(* ===================================================================== *)
(** * The four-seasons page (pages/추가된 게시판.py) *)
(* ===================================================================== *)

Section FourSeasons.

Variable fetch : string → option DataFrame.
Hypothesis fetch_priced : ∀ ticker data, fetch ticker = Some data → priced data.

Lemma load_etfs_from (etfs : list (string * string)) :
  ∀ frames : list (string * DataFrame),
  NoDup etfs.*1 →
  Forall (λ a, a.1 ∉ frames.*1) etfs →
  ∃ new,
    load_etfs fetch etfs frames = frames ++ new ∧
    Forall2 (stored_etf fetch) (filter (λ a, has_data fetch a.2 = true) etfs) new.
Proof.
  induction etfs as [|[label ticker] rest IH]; intros frames Hnodup Hfresh.
  - exists []. simpl. rewrite app_nil_r. split; [done | constructor].
  - rewrite fmap_cons in Hnodup. apply NoDup_cons in Hnodup as [Hnotin Hnodup].
    apply Forall_cons in Hfresh as [Hfresh0 Hfresh]. cbn [fst] in Hfresh0, Hnotin.
    cbn [load_etfs].
    destruct (has_data fetch ticker) eqn:Hdata.
    + pose proof Hdata as Hdata'. unfold has_data in Hdata'.
      destruct (fetch ticker) as [df|] eqn:Hfetch; [|done].
      apply negb_true_iff in Hdata'. rewrite Hdata'. cbn [negb].
      rewrite dict_set_fresh by done.
      destruct (IH (frames ++ [(label, df)]) Hnodup) as (new & Hrun & Hall).
      * rewrite fmap_app, list_fmap_singleton. cbn [fst].
        apply Forall_forall. intros a Ha. rewrite Forall_forall in Hfresh.
        rewrite elem_of_app, list_elem_of_singleton.
        intros [Hin | Heq]; [by apply (Hfresh a Ha)|].
        apply Hnotin. rewrite <- Heq. apply list_elem_of_fmap. by exists a.
      * exists ((label, df) :: new). rewrite Hrun, <- app_assoc. split; [done|].
        rewrite filter_cons_True by done. constructor; [|done]. done.
    + assert (Hskip : match fetch ticker with
                      | Some df => if negb (empty df) then dict_set frames label df else frames
                      | None => frames
                      end = frames).
      { unfold has_data in Hdata. destruct (fetch ticker) as [df|]; [|done].
        by rewrite Hdata. }
      rewrite Hskip. destruct (IH frames Hnodup Hfresh) as (new & Hrun & Hall).
      exists new. split; [done|].
      by rewrite filter_cons_False by (cbn [snd]; rewrite Hdata; done).
Qed.

Lemma etf_performance_data_rows (frames : list (string * DataFrame)) :
  Forall (λ item, priced item.2 ∧ empty item.2 = false) frames →
  ∃ rows, etf_performance_data frames = Ok rows ∧ etf_label <$> rows = frames.*1.
Proof.
  induction 1 as [|[label data] frames [Hp Hne] _ (rows & Hrows & Hnames)].
  - by exists [].
  - cbn [snd] in Hp, Hne. destruct (priced_close data Hp Hne) as (c0 & cs & Hclose).
    destruct (iloc_last_cons c0 cs) as (cl & Hlast & _).
    eexists (_ :: rows). split.
    + cbn [etf_performance_data].
      rewrite (etf_summarize_ok label data c0 cl cs Hclose Hlast).
      cbn [mbind result_bind]. rewrite Hrows. reflexivity.
    + rewrite !fmap_cons. by rewrite Hnames.
Qed.

(** X14.  On pages/추가된 게시판.py the loop over a catalogue of distinct
    labels stores, in catalogue order and unchanged, exactly the frames
    of the downloads that have rows and columns, and shows nothing for
    the others.  Its table, which has no guard of its own, then has one
    row per stored frame and cannot raise. *)
Theorem four_seasons_page (etfs : list (string * string)) :
  NoDup etfs.*1 →
  Forall2 (stored_etf fetch)
    (filter (λ a, has_data fetch a.2 = true) etfs) (load_etfs fetch etfs []) ∧
  ∃ rows, etf_performance_data (load_etfs fetch etfs []) = Ok rows ∧
          etf_label <$> rows = (filter (λ a, has_data fetch a.2 = true) etfs).*1.
Proof.
  intros Hnodup.
  destruct (load_etfs_from etfs [] Hnodup) as (new & Hrun & Hall).
  { apply Forall_forall. intros a _. apply not_elem_of_nil. }
  rewrite Hrun. cbn [app]. split; [done|].
  revert Hall. generalize (filter (λ a, has_data fetch a.2 = true) etfs).
  intros loaded Hall.
  destruct (etf_performance_data_rows new) as (rows & Hrows & Hnames).
  { clear -Hall fetch_priced.
    induction Hall as [|a item ? ? (_ & Hfetch & Hne) _ IH]; constructor; [|done].
    split; [by eapply fetch_priced | done]. }
  exists rows. split; [done|]. rewrite Hnames. clear -Hall.
  induction Hall as [|a item ? ? [Hname _] _ IH]; [done|].
  rewrite !fmap_cons. by rewrite Hname, IH.
Qed.

End FourSeasons.

Lemma four_seasons_names_distinct : NoDup ALL_WEATHER_ETFS.*1.
Proof. apply (bool_decide_unpack _). reflexivity. Qed.

Lemma four_seasons_page_witness :
  Forall2 (stored_etf sample_fetch)
    (filter (λ a, has_data sample_fetch a.2 = true) ALL_WEATHER_ETFS)
    (load_etfs sample_fetch ALL_WEATHER_ETFS []) ∧
  ∃ rows, etf_performance_data (load_etfs sample_fetch ALL_WEATHER_ETFS []) = Ok rows ∧
          etf_label <$> rows =
            (filter (λ a, has_data sample_fetch a.2 = true) ALL_WEATHER_ETFS).*1.
Proof.
  exact (four_seasons_page sample_fetch sample_fetch_priced ALL_WEATHER_ETFS
           four_seasons_names_distinct).
Defined.

(* ===================================================================== *)
(** * The company metrics *)
(* ===================================================================== *)

Section Metrics.

Implicit Types (selected : list string) (infos : list (string * company_info)).

Lemma company_metrics_from_spec selected infos : ∀ i : nat,
  (∀ c info, c ∈ selected → dict_get infos c = Some info →
     ∃ m, company_metric c info = Returns m) →
  ∃ ms,
    company_metrics_from i selected infos = Returns ms ∧
    ∀ (j : nat) (m : metric),
      (j, m) ∈ ms ↔
      ∃ (k : nat) c info, j = (i + k)%nat ∧ selected !! k = Some c ∧
        dict_get infos c = Some info ∧ company_metric c info = Returns m.
Proof.
  induction selected as [|company rest IH]; intros i Hrender.
  - exists []. split; [done|]. intros j m. split.
    + by intros ?%elem_of_nil.
    + intros (k & c & info & _ & Hk & _). by rewrite lookup_nil in Hk.
  - destruct (IH (S i)) as (ms & Hrun & Hspec).
    { intros c info Hc. apply Hrender. by apply list_elem_of_further. }
    cbn [company_metrics_from].
    destruct (dict_get infos company) as [info|] eqn:Hinfo.
    + destruct (Hrender company info (list_elem_of_here _ _) Hinfo) as [m0 Hm0].
      exists ((i, m0) :: ms). split.
      { rewrite Hm0. cbn [mbind outcome_bind]. rewrite Hrun. reflexivity. }
      intros j m. rewrite elem_of_cons, Hspec. split.
      * intros [[= -> ->] | (k & c & info' & -> & Hk & Hi & Hm)].
        -- exists 0%nat, company, info. rewrite Nat.add_0_r. done.
        -- exists (S k), c, info'. split; [lia | done].
      * intros ([|k] & c & info' & -> & Hk & Hi & Hm).
        -- left. cbn [lookup list_lookup] in Hk. injection Hk as <-.
           rewrite Nat.add_0_r. congruence.
        -- right. exists k, c, info'. split; [lia | done].
    + exists ms. split; [done|]. intros j m. rewrite Hspec. split.
      * intros (k & c & info' & -> & Hk & Hi & Hm).
        exists (S k), c, info'. split; [lia | done].
      * intros ([|k] & c & info' & -> & Hk & Hi & Hm).
        -- cbn [lookup list_lookup] in Hk. injection Hk as <-. congruence.
        -- exists k, c, info'. split; [lia | done].
Qed.

Lemma company_metrics_from_raises selected infos : ∀ i : nat,
  (∃ c info e, c ∈ selected ∧ dict_get infos c = Some info ∧
               company_metric c info = Raises e) →
  ∃ e, company_metrics_from i selected infos = Raises e.
Proof.
  induction selected as [|company rest IH]; intros i (c & info & e & Hc & Hi & He).
  - by apply elem_of_nil in Hc.
  - cbn [company_metrics_from].
    destruct (dict_get infos company) as [info0|] eqn:Hinfo.
    + destruct (company_metric company info0) as [m0|e0] eqn:Hm0; [|by exists e0].
      cbn [mbind outcome_bind].
      apply elem_of_cons in Hc as [-> | Hc]; [congruence|].
      destruct (IH (S i)) as [e' ->]; [by exists c, info, e|]. by exists e'.
    + apply elem_of_cons in Hc as [-> | Hc]; [congruence|].
      apply IH. by exists c, info, e.
Qed.

Variables (fetch : string → option DataFrame)
          (info_of : string → option (gmap string pyval)).

(** X15.  After the loading loop, column j of the metrics row shows a
    metric exactly when the j-th selected company has data, and it is the
    metric of what [get_company_info] returned for that company's ticker;
    the columns of the other companies stay empty.  This holds when the
    information of every selected company can be rendered; if that of
    some loaded company cannot, the loop raises. *)
Theorem metrics_after_loading selected :
  NoDup selected →
  Forall (λ c, is_Some (dict_get TOP_10_COMPANIES c)) selected →
  ∃ st,
    load_companies fetch info_of selected no_companies = Ok st ∧
    ((∀ c ticker, c ∈ selected → dict_get TOP_10_COMPANIES c = Some ticker →
        ∃ m, company_metric c (get_company_info (info_of ticker)) = Returns m) →
     ∃ ms,
       company_metrics_from 0 selected (company_infos st) = Returns ms ∧
       ∀ (j : nat) (m : metric),
         (j, m) ∈ ms ↔
         ∃ c ticker, selected !! j = Some c ∧ company_has_data fetch c = true ∧
           dict_get TOP_10_COMPANIES c = Some ticker ∧
           company_metric c (get_company_info (info_of ticker)) = Returns m) ∧
    ((∃ c ticker e, c ∈ selected ∧ company_has_data fetch c = true ∧
        dict_get TOP_10_COMPANIES c = Some ticker ∧
        company_metric c (get_company_info (info_of ticker)) = Raises e) →
     ∃ e, company_metrics_from 0 selected (company_infos st) = Raises e).
Proof.
  intros Hnodup Hknown.
  destruct (load_companies_run fetch info_of selected Hnodup Hknown)
    as (st & Hrun & Hk & Hi & _ & _ & Hg).
  exists st. split; [done|].
  assert (Hget : ∀ c info, dict_get (company_infos st) c = Some info →
            company_has_data fetch c = true ∧
            ∃ ticker, dict_get TOP_10_COMPANIES c = Some ticker ∧
                      info = get_company_info (info_of ticker)).
  { intros c info Hc. split.
    - assert (c ∈ (company_infos st).*1) as Hin.
      { apply list_elem_of_fmap. exists (c, info). split; [done|].
        by apply dict_get_Some_elem. }
      rewrite Hi, Hk in Hin. by apply list_elem_of_filter in Hin as [? _].
    - apply dict_get_Some_elem in Hc. rewrite Forall_forall in Hg.
      by destruct (Hg _ Hc) as (ticker & ? & ?); exists ticker. }
  assert (Hhas : ∀ c, c ∈ selected → company_has_data fetch c = true →
            ∃ info, dict_get (company_infos st) c = Some info).
  { intros c Hc Hdata.
    destruct (dict_get (company_infos st) c) as [info|] eqn:Hinfo; [by exists info|].
    apply dict_get_None in Hinfo. exfalso. apply Hinfo.
    rewrite Hi, Hk. by apply list_elem_of_filter. }
  split.
  - intros Hrender.
    destruct (company_metrics_from_spec selected (company_infos st) 0) as (ms & Hms & Hspec).
    { intros c info Hc Hinfo. destruct (Hget c info Hinfo) as (_ & ticker & Ht & ->).
      by eapply Hrender. }
    exists ms. split; [done|]. intros j m. rewrite Hspec. split.
    + intros (k & c & info & -> & Hsel & Hinfo & Hm).
      destruct (Hget c info Hinfo) as (Hdata & ticker & Ht & ->).
      by exists c, ticker.
    + intros (c & ticker & Hsel & Hdata & Ht & Hm).
      destruct (Hhas c) as [info Hinfo]; [by eapply list_elem_of_lookup_2 | done |].
      destruct (Hget c info Hinfo) as (_ & ticker' & Ht' & ->).
      exists j, c, (get_company_info (info_of ticker')).
      repeat (split; [done|]). congruence.
  - intros (c & ticker & e & Hc & Hdata & Ht & He).
    apply company_metrics_from_raises.
    destruct (Hhas c Hc Hdata) as [info Hinfo].
    destruct (Hget c info Hinfo) as (_ & ticker' & Ht' & ->).
    exists c, (get_company_info (info_of ticker')), e.
    repeat (split; [done|]). congruence.
Qed.

End Metrics.

Lemma metrics_after_loading_witness :
  ∃ st,
    load_companies sample_fetch sample_info ["Microsoft"; "Apple"] no_companies = Ok st ∧
    company_metrics_from 0 ["Microsoft"; "Apple"] (company_infos st) =
      Returns [(1%nat, {| metric_label := "Apple";
                          metric_value := "$110.00";
                          metric_delta := "시총: $3.50T";
                          caption_sector := PyStr "N/A" |})].
Proof.
  destruct (metrics_after_loading sample_fetch sample_info ["Microsoft"; "Apple"]
              sample_selection_distinct sample_selection_known)
    as (st & Hrun & _ & _).
  exists st. split; [exact Hrun|].
  vm_compute in Hrun. injection Hrun as <-. vm_compute. reflexivity.
Defined.

(* ===================================================================== *)
(** * The page with the candlestick chart *)
(* ===================================================================== *)

Section CandlestickPage.

Variables (fetch : string → option DataFrame)
          (info_of : string → option (gmap string pyval)).




End CandlestickPage.



(** The same page with Apple selected first: the metrics row and the
    chart are shown. *)
Example sample_candlestick_page :
  ∃ st,
    load_companies sample_fetch sample_info ["Apple"; "Microsoft"] no_companies = Ok st ∧
    candlestick_page ["Apple"; "Microsoft"] st
      (datetime.make 2020 1 1) (datetime.make 2020 2 19) =
    Shown (Some ([(0%nat, {| metric_label := "Apple";
                             metric_value := "$110.00";
                             metric_delta := "시총: $3.50T";
                             caption_sector := PyStr "N/A" |})],
                 {| traces := ["Apple"];
                    shapes := overlapping_windows CRISIS_PERIODS
                                (datetime.make 2020 1 1) (datetime.make 2020 2 19) |})).
Proof. eexists. split; [vm_compute; reflexivity|]. vm_compute. reflexivity. Qed.

(** Information that cannot be rendered stops the page before the chart:
    a current price of [None] raises TypeError in the metrics row. *)
Example sample_candlestick_page_raises :
  let info_of := λ _ : string, Some (<["currentPrice" := PyNone]> (∅ : gmap string pyval)) in
  ∃ st,
    load_companies sample_fetch info_of ["Apple"] no_companies = Ok st ∧
    candlestick_page ["Apple"] st (datetime.make 2020 1 1) (datetime.make 2020 2 19) =
      Failed (ValueExn TypeError).
Proof. eexists. split; [vm_compute; reflexivity|]. vm_compute. reflexivity. Qed.
